(** * distutils.cygwinccompiler: the Cygwin and MinGW toolchain adapters

    A shallow embedding of [setuptools/_distutils/cygwinccompiler.py]
    (setuptools 69.5.1) and the properties its specification states.

    Conventions of the embedding.
    - A Python [str] (and the [bytes] answered by a subprocess) is a
      [string]; the version string and the paths handled here are ASCII.
    - A Python [int] is a [Z].
    - A raising computation returns [Raise e]; [None] is [None] of an
      [option].
    - The list objects handed to [link] live in a store ([gmap] from
      locations to contents), so that aliasing between the caller's lists
      and the copies [link] works on is visible.
    - What the module asks of its collaborators (the base class
      [UnixCCompiler], [subprocess], [shlex], [os.path]) enters either as
      a section variable or as a definition documented as such. *)

From Stdlib Require Import ZArith Lia Ascii String.
From stdpp Require Import base option list strings gmap pretty.

Local Open Scope string_scope.
Local Open Scope list_scope.
Local Open Scope Z_scope.

(** ** Exceptions and results *)

(** The exceptions the module raises or lets through; [ExternalError] is
    for what a collaborator raises (a failed subprocess, a failed
    write). *)
Inductive exn : Type :=
| KeyError (key : Z)
| ValueError (msg : string)
| TypeError (msg : string)
| IndexError (msg : string)
| CCompilerError (msg : string)
| DistutilsPlatformError (msg : string)
| SystemError (msg : string)
| ExternalError (msg : string).

Inductive result (A : Type) : Type :=
| Ok (a : A)
| Raise (e : exn).

Arguments Ok {A} a.
Arguments Raise {A} e.

Definition is_ok {A} (r : result A) : bool :=
  match r with Ok _ => true | Raise _ => false end.

(** ** Strings *)

Definition is_digit (c : ascii) : bool :=
  let n := N_of_ascii c in ((48 <=? n) && (n <=? 57))%N.

Definition digit_value (c : ascii) : Z := Z.of_N (N_of_ascii c) - 48.

(** [int(s)] for a string of decimal digits. *)
Fixpoint int_digits (acc : Z) (s : string) : Z :=
  match s with
  | EmptyString => acc
  | String c s' => int_digits (10 * acc + digit_value c) s'
  end.

Definition int (s : string) : Z := int_digits 0 s.

(** [str(n)] for a non-negative integer: its decimal digits. *)
Definition str (n : Z) : string := pretty n.

Fixpoint all_digits (s : string) : bool :=
  match s with
  | EmptyString => true
  | String c s' => is_digit c && all_digits s'
  end.

(** [s[:n]] and [s[n:]]. *)
Fixpoint take_str (n : nat) (s : string) : string :=
  match n, s with
  | O, _ => EmptyString
  | S n', String c s' => String c (take_str n' s')
  | S _, EmptyString => EmptyString
  end.

Fixpoint drop_str (n : nat) (s : string) : string :=
  match n, s with
  | O, _ => s
  | S n', String _ s' => drop_str n' s'
  | S _, EmptyString => EmptyString
  end.

(** [s.startswith(p)] *)
Fixpoint startswith (p s : string) : bool :=
  match p, s with
  | EmptyString, _ => true
  | String a p', String b s' => if Ascii.eqb a b then startswith p' s' else false
  | String _ _, EmptyString => false
  end.

(** ** The runtime-library resolver *)

Module RangeMap.

(** A table entry is a library list or the class's [undefined_value]
    sentinel. *)
Inductive value : Type :=
| libs (l : list string)
| undefined_value.

(** The dict literal the table is built from, in source order. *)
Definition t : Type := list (Z * value).

Definition keys (m : t) : list Z := fst <$> m.

(** Modelled from the spec: the lookup of [RangeMap.left], whose class
    lives in [_collections.py], outside this module.  "Ranges are
    half-open: a version falls into the range starting at the largest
    table key <= the version"; the search keeps the largest such key met
    so far. *)
Fixpoint find_boundary (m : t) (item : Z) (best : option (Z * value))
  : option (Z * value) :=
  match m with
  | [] => best
  | (k, x) :: m' =>
      let best' :=
        if k <=? item then
          match best with
          | Some (kb, _) => if kb <? k then Some (k, x) else best
          | None => Some (k, x)
          end
        else best in
      find_boundary m' item best'
  end.

(** Modelled from the spec: [RangeMap.left(...)[item]].  "Versions at or
    above a defined upper sentinel resolve to undefined (signals
    failure)": an item that falls in a range mapped to [undefined_value],
    or below every boundary, is a [KeyError]. *)
Definition getitem (m : t) (item : Z) : result (list string) :=
  match find_boundary m item None with
  | Some (_, libs l) => Ok l
  | Some (k, undefined_value) => Raise (KeyError k)
  | None => Raise (KeyError item)
  end.

End RangeMap.

Definition _msvcr_lookup : RangeMap.t :=
  [ (1300, RangeMap.libs ["msvcr70"]);
    (1310, RangeMap.libs ["msvcr71"]);
    (1400, RangeMap.libs ["msvcr80"]);
    (1500, RangeMap.libs ["msvcr90"]);
    (1600, RangeMap.libs ["msvcr100"]);
    (1700, RangeMap.libs ["msvcr110"]);
    (1800, RangeMap.libs ["msvcr120"]);
    (1900, RangeMap.libs ["vcruntime140"]);
    (2000, RangeMap.undefined_value) ].

(** The pattern [MSC v\.(\d{4})] matched at the head of [s]: the literal
    marker, then exactly four digits, which form group 1. *)
Definition match_msc_here (s : string) : option string :=
  if startswith "MSC v." s then
    let g := take_str 4 (drop_str 6 s) in
    if (String.length g =? 4)%nat && all_digits g then Some g else None
  else None.

(** [re.search(r'MSC v\.(\d{4})', s)]: group 1 of the leftmost match, or
    [None] when the pattern matches nowhere. *)
Fixpoint re_search_msc (s : string) : option string :=
  match match_msc_here s with
  | Some g => Some g
  | None =>
      match s with
      | EmptyString => None
      | String _ s' => re_search_msc s'
      end
  end.

(** [get_msvcr()], as a function of [sys.version].  [match.group(1)] on a
    failed search raises [AttributeError], which the function turns into a
    bare [return]: the answer is then [None]. *)
Definition get_msvcr (sys_version : string) : result (option (list string)) :=
  match re_search_msc sys_version with
  | None => Ok None
  | Some g =>
      let msc_ver := int g in
      match RangeMap.getitem _msvcr_lookup msc_ver with
      | Ok l => Ok (Some l)
      | Raise (KeyError _) =>
          Raise (ValueError ("Unknown MS Compiler version " +:+ str msc_ver +:+ " "))
      | Raise e => Raise e
      end
  end.

(** The compiler version [get_msvcr] reads off the version string. *)
Definition msc_ver_of (sys_version : string) : option Z :=
  int <$> re_search_msc sys_version.

(** ** [os.path]

    The module runs with [posixpath] as [os.path] under Cygwin's Python and
    with [ntpath] under a native Windows Python (the MinGW case). *)

(** [s.rfind(c)], with Python's [-1] for "not found". *)
Fixpoint rfind_nat (c : ascii) (s : string) : option nat :=
  match s with
  | EmptyString => None
  | String a s' =>
      match rfind_nat c s' with
      | Some i => Some (S i)
      | None => if Ascii.eqb a c then Some O else None
      end
  end.

Definition rfind (c : ascii) (s : string) : Z :=
  match rfind_nat c s with Some i => Z.of_nat i | None => -1 end.

(** [s.rstrip(c)] for a one-character set. *)
Fixpoint rstrip_char (c : ascii) (s : string) : string :=
  match s with
  | EmptyString => EmptyString
  | String a s' =>
      match rstrip_char c s' with
      | EmptyString => if Ascii.eqb a c then EmptyString else String a EmptyString
      | r => String a r
      end
  end.

Fixpoint all_char (c : ascii) (s : string) : bool :=
  match s with
  | EmptyString => true
  | String a s' => Ascii.eqb a c && all_char c s'
  end.

Fixpoint endswith_char (c : ascii) (s : string) : bool :=
  match s with
  | EmptyString => false
  | String a EmptyString => Ascii.eqb a c
  | String _ s' => endswith_char c s'
  end.

Module os.

(** The four [os.path] functions [link] calls. *)
Record path : Type := {
  basename : string -> string;
  dirname : string -> string;
  splitext : string -> string * string;
  join : string -> string -> string
}.

End os.

Module posixpath.

Definition sep : ascii := "/"%char.
Definition extsep : ascii := "."%char.

(** [i = p.rfind(sep) + 1; return p[i:]] *)
Definition basename (p : string) : string :=
  let i := rfind sep p + 1 in drop_str (Z.to_nat i) p.

(** [head = p[:i]], trailing separators stripped unless [head] is made
    of separators only. *)
Definition dirname (p : string) : string :=
  let i := rfind sep p + 1 in
  let head := take_str (Z.to_nat i) p in
  if negb (String.eqb head EmptyString) && negb (all_char sep head)
  then rstrip_char sep head else head.

(** [genericpath._splitext(p, sep, None, extsep)]: the extension starts
    at the last dot of the last component, unless only dots precede
    it. *)
Definition splitext (p : string) : string * string :=
  let sepIndex := rfind sep p in
  let dotIndex := rfind extsep p in
  if sepIndex <? dotIndex then
    let filenameIndex := sepIndex + 1 in
    let leading :=
      take_str (Z.to_nat (dotIndex - filenameIndex))
               (drop_str (Z.to_nat filenameIndex) p) in
    if all_char extsep leading then (p, EmptyString)
    else (take_str (Z.to_nat dotIndex) p, drop_str (Z.to_nat dotIndex) p)
  else (p, EmptyString).

(** [os.path.join(a, b)] *)
Definition join (a b : string) : string :=
  if startswith "/" b then b
  else if String.eqb a EmptyString || endswith_char sep a then a +:+ b
  else a +:+ "/" +:+ b.

(** [posixpath.normcase] returns its argument unchanged. *)
Definition normcase (s : string) : string := s.

Definition ops : os.path :=
  {| os.basename := basename; os.dirname := dirname;
     os.splitext := splitext; os.join := join |}.

End posixpath.

(** [c.lower()] and [s.lower()] on ASCII. *)
Definition lower_char (c : ascii) : ascii :=
  let n := N_of_ascii c in
  if ((65 <=? n) && (n <=? 90))%N then ascii_of_N (n + 32) else c.

Fixpoint lower (s : string) : string :=
  match s with
  | EmptyString => EmptyString
  | String c s' => String (lower_char c) (lower s')
  end.

(** [s.replace(a, b)] for single characters. *)
Fixpoint replace_char (a b : ascii) (s : string) : string :=
  match s with
  | EmptyString => EmptyString
  | String c s' => String (if Ascii.eqb c a then b else c) (replace_char a b s')
  end.

Module ntpath.

Definition sep : ascii := ascii_of_N 92.
Definition altsep : ascii := "/"%char.

(** [ntpath.normcase(s)]: [s.replace(altsep, sep).lower()]. *)
Definition normcase (s : string) : string :=
  lower (replace_char altsep sep s).

End ntpath.

(** ** The store of list objects and the effects of the module *)

Definition loc : Type := positive.

(** What the module does to the outside: warnings ([self.warn]), debug
    output ([self.debug_print]), the request to write the definition file
    ([self.execute(write_file, (filename, contents), msg)]); [Link_step] is
    for a link step that reports the lists it was given. *)
Inductive event : Type :=
| Warn (msg : string)
| DebugPrint (msg : string)
| Execute_write_file (filename : string) (contents : list string) (msg : string)
| Link_step (objects libraries extra_preargs : list string).

(** The outcome of a computation: the store it leaves, the events it
    caused, and its value or exception.  What was done before an exception
    stays done. *)
Record run (A : Type) : Type := Run {
  final : gmap loc (list string);
  trace : list event;
  value : result A
}.

Arguments Run {A} final trace value.
Arguments final {A} r.
Arguments trace {A} r.
Arguments value {A} r.

Definition M (A : Type) : Type := gmap loc (list string) -> run A.

Definition ret {A} (a : A) : M A := fun h => Run h [] (Ok a).

Definition raise {A} (e : exn) : M A := fun h => Run h [] (Raise e).

(** [r], after the events [t]. *)
Definition after {A} (t : list event) (r : run A) : run A :=
  Run (final r) (t ++ trace r) (value r).

Definition bind {A B} (m : M A) (k : A -> M B) : M B :=
  fun h =>
    match m h with
    | Run h' t (Ok a) => after t (k a h')
    | Run h' t (Raise e) => Run h' t (Raise e)
    end.

Declare Scope py_scope.
Delimit Scope py_scope with py.
Notation "x <- m ;; k" := (bind m (fun x => k))
  (at level 20, m at level 99, k at level 200) : py_scope.
Notation "m ;; k" := (bind m (fun _ => k))
  (at level 100, k at level 200, right associativity) : py_scope.
Local Open Scope py_scope.

Definition lift {A} (r : result A) : M A := fun h => Run h [] r.

Definition emit (e : event) : M unit := fun h => Run h [e] (Ok tt).

(** A new list object. *)
Definition new_list (xs : list string) : M loc :=
  fun h => let l := fresh (dom h) in Run (<[l := xs]> h) [] (Ok l).

(** Reading a list object.  A reference to nothing cannot arise in Python;
    the model answers it with [SystemError]. *)
Definition load (l : loc) : M (list string) :=
  fun h =>
    match h !! l with
    | Some xs => Run h [] (Ok xs)
    | None => Run h [] (Raise (SystemError "dangling reference"))
    end.

Definition store (l : loc) (xs : list string) : M unit :=
  fun h => Run (<[l := xs]> h) [] (Ok tt).

(** [x or []] for [x] a list or [None]: [x] itself when it is a non-empty
    list, a new empty list otherwise. *)
Definition or_empty_list (x : option loc) : M loc :=
  match x with
  | None => new_list []
  | Some l =>
      xs <- load l ;;
      match xs with
      | [] => new_list []
      | _ :: _ => ret l
      end
  end.

(** [copy.copy(l)] for a list: a new list with the same items. *)
Definition copy_copy (l : loc) : M loc :=
  xs <- load l ;; new_list xs.

(** Truth value of a list or [None]. *)
Definition truthy (x : option loc) : M bool :=
  match x with
  | None => ret false
  | Some l =>
      xs <- load l ;;
      ret (match xs with [] => false | _ :: _ => true end)
  end.

(** [l.extend(other)]: [other] must be iterable, and [None] is not. *)
Definition list_extend (l : loc) (other : option (list string)) : M unit :=
  match other with
  | None => raise (TypeError "'NoneType' object is not iterable")
  | Some ys => xs <- load l ;; store l (xs ++ ys)
  end.

(** [l.append(x)] *)
Definition list_append (l : loc) (x : string) : M unit :=
  xs <- load l ;; store l (xs ++ [x]).

(** The items of a list argument, [[]] for [None]. *)
Definition or_empty_items (x : option loc) : M (list string) :=
  match x with
  | None => ret []
  | Some l => load l
  end.

(** [l[0]] *)
Definition list_getitem_0 (l : loc) : M string :=
  xs <- load l ;;
  match xs with
  | [] => raise (IndexError "list index out of range")
  | x :: _ => ret x
  end.

(** ** The compiler objects *)

Inductive compiler_type : Type := cygwin | mingw32.

(** The link targets of the base class [CCompiler]; [link] only compares
    its [target_desc] with [EXECUTABLE]. *)
Inductive target : Type := SHARED_OBJECT | SHARED_LIBRARY | EXECUTABLE.

#[global] Instance target_eq_dec : EqDecision target.
Proof. solve_decision. Defined.

(** The command lines given to [set_executables]. *)
Record executables : Type := {
  compiler : string;
  compiler_so : string;
  compiler_cxx : string;
  linker_exe : string;
  linker_so : string
}.

(** The attributes of a [CygwinCCompiler] (or [Mingw32CCompiler]) that the
    module sets and reads. *)
Record ccompiler : Type := {
  ctype : compiler_type;
  cc : string;
  cxx : string;
  linker_dll : string;
  exes : executables;
  dll_libraries : option (list string)
}.

Definition _runtime_library_dirs_msg : string :=
  "Unable to set runtime library search path on Windows, "
  +:+ "usually indicated by `runtime_library_dirs` parameter to Extension".

(** The arguments of [link]; the same thirteen are handed on to
    [UnixCCompiler.link].  A list argument is a reference into the store
    or [None]. *)
Record link_args : Type := {
  target_desc : target;
  objects : option loc;
  output_filename : string;
  output_dir : option string;
  libraries : option loc;
  library_dirs : option loc;
  runtime_library_dirs : option loc;
  export_symbols : option loc;
  debug : Z;
  extra_preargs : option loc;
  extra_postargs : option loc;
  build_temp : option string;
  target_lang : option string
}.

(** ** [CygwinCCompiler.link] *)

Section Link.

(** [os.path] of the running interpreter. *)
Variable os_path : os.path.

(** How [write_file], run by [self.execute], fares on the file system:
    [None] when it returns, the exception otherwise. *)
Variable write_file_raises : string -> list string -> option exn.

(** [UnixCCompiler.link], the link step of the base class. *)
Variable UnixCCompiler_link : ccompiler -> link_args -> M unit.

(** [self.execute(write_file, (def_file, contents), msg)] *)
Definition execute_write_file (def_file : string) (contents : list string)
    (msg : string) : M unit :=
  emit (Execute_write_file def_file contents msg) ;;
  match write_file_raises def_file contents with
  | None => ret tt
  | Some e => raise e
  end.

(** The test guarding the def-file branch, once [export_symbols] is known
    not to be [None]. *)
Definition def_file_wanted (self : ccompiler) (a : link_args) : bool :=
  bool_decide (target_desc a <> EXECUTABLE) || String.eqb (linker_dll self) "gcc".

(** The body of the def-file branch. *)
Definition generate_def_file (a : link_args) (objects : loc) (syms : loc)
  : M unit :=
  object0 <- list_getitem_0 objects ;;
  let temp_dir := os.dirname os_path object0 in
  let '(dll_name, dll_extension) :=
    os.splitext os_path (os.basename os_path (output_filename a)) in
  let def_file := os.join os_path temp_dir (dll_name +:+ ".def") in
  export_symbols <- load syms ;;
  let contents :=
    ["LIBRARY " +:+ os.basename os_path (output_filename a); "EXPORTS"]
    ++ export_symbols in
  execute_write_file def_file contents ("writing " +:+ def_file) ;;
  list_append objects def_file.

(** [link] up to the call of the base class: the value is the argument
    list of that call. *)
Definition link_prepare (self : ccompiler) (a : link_args) : M link_args :=
  extra_preargs <- bind (or_empty_list (extra_preargs a)) copy_copy ;;
  libraries <- bind (or_empty_list (libraries a)) copy_copy ;;
  objects <- bind (or_empty_list (objects a)) copy_copy ;;
  requested <- truthy (runtime_library_dirs a) ;;
  (if requested then emit (Warn _runtime_library_dirs_msg) else ret tt) ;;
  list_extend libraries (dll_libraries self) ;;
  match export_symbols a with
  | Some syms =>
      if def_file_wanted self a then generate_def_file a objects syms
      else ret tt
  | None => ret tt
  end ;;
  (if debug a =? 0 then list_append extra_preargs "-s" else ret tt) ;;
  ret {| target_desc := target_desc a;
         objects := Some objects;
         output_filename := output_filename a;
         output_dir := output_dir a;
         libraries := Some libraries;
         library_dirs := library_dirs a;
         runtime_library_dirs := runtime_library_dirs a;
         export_symbols := None;
         debug := debug a;
         extra_preargs := Some extra_preargs;
         extra_postargs := extra_postargs a;
         build_temp := build_temp a;
         target_lang := target_lang a |}.

Definition link (self : ccompiler) (a : link_args) : M unit :=
  args <- link_prepare self a ;;
  UnixCCompiler_link self args.

End Link.

(** [runtime_library_dir_option(dir)], overridden by [Mingw32CCompiler]. *)
Definition runtime_library_dir_option (self : ccompiler) (dir : string)
  : M (list string) :=
  match ctype self with
  | cygwin => emit (Warn _runtime_library_dirs_msg) ;; ret []
  | mingw32 => raise (DistutilsPlatformError _runtime_library_dirs_msg)
  end.

(** ** [_make_out_path] *)

Section MakeOutPath.

(** [os.path.normcase] of the running interpreter. *)
Variable normcase : string -> string.

(** [CCompiler._make_out_path], reached through [super()]. *)
Variable super_make_out_path : string -> bool -> string -> result string.

(** The local [norm_src_name]. *)
Definition norm_src_name (src_name : string) : string := normcase src_name.

Definition _make_out_path (output_dir : string) (strip_dir : bool)
    (src_name : string) : result string :=
  super_make_out_path output_dir strip_dir (norm_src_name src_name).

End MakeOutPath.

(** ** Construction *)

(** [needle in hay] *)
Fixpoint contains (needle hay : string) : bool :=
  startswith needle hay ||
  match hay with
  | EmptyString => false
  | String _ hay' => contains needle hay'
  end.

(** The characters [bytes.strip()] removes. *)
Definition is_space (c : ascii) : bool :=
  let n := N_of_ascii c in ((n =? 32) || ((9 <=? n) && (n <=? 13)))%N.

Fixpoint lstrip (s : string) : string :=
  match s with
  | EmptyString => EmptyString
  | String c s' => if is_space c then lstrip s' else s
  end.

Fixpoint rstrip (s : string) : string :=
  match s with
  | EmptyString => EmptyString
  | String c s' =>
      match rstrip s' with
      | EmptyString => if is_space c then EmptyString else String c EmptyString
      | r => String c r
      end
  end.

Definition strip (s : string) : string := rstrip (lstrip s).

(** [s.endswith(suffix)] *)
Fixpoint endswith (suffix s : string) : bool :=
  String.eqb suffix s ||
  match s with
  | EmptyString => false
  | String _ s' => endswith suffix s'
  end.

Inductive config_h_status : Type := CONFIG_H_OK | CONFIG_H_NOTOK | CONFIG_H_UNCERTAIN.

(** What reading [pyconfig.h] gives: its text, an [OSError] with its
    [strerror], or another exception. *)
Inductive read_outcome : Type :=
| read_text (text : string)
| read_OSError (strerror : string)
| read_raises (e : exn).

(** What the interpreter and the process environment provide. *)
Record environment : Type := {
  sys_version : string;
  environ_CC : option string;
  environ_CXX : option string;
  config_h_filename : string;
  config_h : read_outcome
}.

Section Construction.

(** [repr] of a string. *)
Variable repr : string -> string.

(** [shlex.split] *)
Variable shlex_split : string -> result (list string).

(** [subprocess.check_output]: the bytes the command prints, or the
    exception of a failed spawn or a non-zero exit. *)
Variable check_output : list string -> result string.

Definition check_config_h (env : environment) : result (config_h_status * string) :=
  if contains "GCC" (sys_version env) then
    Ok (CONFIG_H_OK, "sys.version mentions 'GCC'")
  else if contains "Clang" (sys_version env) then
    Ok (CONFIG_H_OK, "sys.version mentions 'Clang'")
  else
    let fn := config_h_filename env in
    match config_h env with
    | read_text text =>
        let substring := "__GNUC__" in
        let '(code, mention_inflected) :=
          if contains substring text then (CONFIG_H_OK, "mentions")
          else (CONFIG_H_NOTOK, "does not mention") in
        Ok (code, repr fn +:+ " " +:+ mention_inflected +:+ " " +:+ repr substring)
    | read_OSError strerror =>
        Ok (CONFIG_H_UNCERTAIN, "couldn't read '" +:+ fn +:+ "': " +:+ strerror)
    | read_raises e => Raise e
    end.

Definition is_cygwincc (cc : string) : result bool :=
  match shlex_split cc with
  | Raise e => Raise e
  | Ok argv =>
      match check_output (argv ++ ["-dumpmachine"]) with
      | Raise e => Raise e
      | Ok out_string => Ok (endswith "cygwin" (strip out_string))
      end
  end.

(** [CygwinCCompiler.__init__].  The constructor of the base class only
    fills in attributes; [set_executables] records the command lines it is
    given, which the model keeps as [exes]. *)
Definition CygwinCCompiler_init (env : environment) : M ccompiler :=
  sd <- lift (check_config_h env) ;;
  let '(status, details) := sd in
  emit (DebugPrint ("Python's GCC status: "
                    +:+ match status with
                        | CONFIG_H_OK => "ok"
                        | CONFIG_H_NOTOK => "not ok"
                        | CONFIG_H_UNCERTAIN => "uncertain"
                        end
                    +:+ " (details: " +:+ details +:+ ")")) ;;
  match status with
  | CONFIG_H_OK => ret tt
  | _ =>
      emit (Warn ("Python's pyconfig.h doesn't seem to support your compiler. "
                  +:+ "Reason: " +:+ details +:+ ". "
                  +:+ "Compiling may fail because of undefined preprocessor macros."))
  end ;;
  let cc := default "gcc" (environ_CC env) in
  let cxx := default "g++" (environ_CXX env) in
  let linker_dll := cc in
  let shared_option := "-shared" in
  let exes :=
    {| compiler := cc +:+ " -mcygwin -O -Wall";
       compiler_so := cc +:+ " -mcygwin -mdll -O -Wall";
       compiler_cxx := cxx +:+ " -mcygwin -O -Wall";
       linker_exe := cc +:+ " -mcygwin";
       linker_so := linker_dll +:+ " -mcygwin " +:+ shared_option |} in
  dll_libraries <- lift (get_msvcr (sys_version env)) ;;
  ret {| ctype := cygwin; cc := cc; cxx := cxx; linker_dll := linker_dll;
         exes := exes; dll_libraries := dll_libraries |}.

(** [Mingw32CCompiler.__init__]: the constructor above, the Cygwin check,
    then the command lines without [-mcygwin]. *)
Definition Mingw32CCompiler_init (env : environment) : M ccompiler :=
  self <- CygwinCCompiler_init env ;;
  let shared_option := "-shared" in
  cyg <- lift (is_cygwincc (cc self)) ;;
  (if cyg : bool
   then raise (CCompilerError "Cygwin gcc cannot be used with --compiler=mingw32")
   else ret tt) ;;
  let exes :=
    {| compiler := cc self +:+ " -O -Wall";
       compiler_so := cc self +:+ " -mdll -O -Wall";
       compiler_cxx := cxx self +:+ " -O -Wall";
       linker_exe := cc self;
       linker_so := linker_dll self +:+ " " +:+ shared_option |} in
  ret {| ctype := mingw32; cc := cc self; cxx := cxx self;
         linker_dll := linker_dll self; exes := exes;
         dll_libraries := dll_libraries self |}.

End Construction.

(** ** [_compile] *)

(** How [self.spawn] fares on a command: it returns, raises
    [DistutilsExecError], or raises something else. *)
Inductive spawn_outcome : Type :=
| spawn_returns
| spawn_DistutilsExecError (msg : string)
| spawn_raises (e : exn).

(** What [_compile] does: the command it spawns and how it ends, by
    returning, by raising [CompileError], or by letting another exception
    through. *)
Inductive compile_end : Type :=
| compile_returns
| compile_CompileError (msg : string)
| compile_raises (e : exn).

Record compile_run : Type := {
  spawned : list string;
  compile_ended : compile_end
}.

Section Compile.

(** [self.spawn] *)
Variable spawn : list string -> spawn_outcome.

(** The list [set_executables] makes of a command line; [self.compiler_so]
    is that list for the command line given as [compiler_so]. *)
Variable split_quoted : string -> list string.

(** [try: self.spawn(cmd) except DistutilsExecError as msg: raise
    CompileError(msg)] *)
Definition spawn_or_CompileError (cmd : list string) : compile_run :=
  {| spawned := cmd;
     compile_ended :=
       match spawn cmd with
       | spawn_returns => compile_returns
       | spawn_DistutilsExecError msg => compile_CompileError msg
       | spawn_raises e => compile_raises e
       end |}.

Definition _compile (self : ccompiler) (obj src ext : string)
    (cc_args extra_postargs pp_opts : list string) : compile_run :=
  if String.eqb ext ".rc" || String.eqb ext ".res" then
    spawn_or_CompileError ["windres"; "-i"; src; "-o"; obj]
  else
    spawn_or_CompileError
      (split_quoted (compiler_so (exes self)) ++ cc_args
       ++ [src; "-o"; obj] ++ extra_postargs).

End Compile.

(** ** [out_extensions] *)



(** * Vocabulary of the properties *)

(** [b] is the greatest boundary of the table [m] that is [<= v]. *)
Definition greatest_boundary (m : RangeMap.t) (v b : Z) : Prop :=
  b ∈ RangeMap.keys m /\ b <= v /\
  forall k, k ∈ RangeMap.keys m -> k <= v -> k <= b.

Fixpoint lacks_char (c : ascii) (s : string) : bool :=
  match s with
  | EmptyString => true
  | String a s' => negb (Ascii.eqb a c) && lacks_char c s'
  end.

(** The items of [x or []] in the store [h]. *)
Definition items (h : gmap loc (list string)) (x : option loc) : list string :=
  match x with
  | Some l => default [] (h !! l)
  | None => []
  end.

(** A list argument is [None] or designates a list of the store. *)
Definition allocated (h : gmap loc (list string)) (x : option loc) : bool :=
  match x with
  | Some l => bool_decide (is_Some (h !! l))
  | None => true
  end.

(** The list arguments that [link] itself reads are lists of the store, as
    they are in every Python call. *)
Definition valid_call (h : gmap loc (list string)) (a : link_args) : bool :=
  allocated h (extra_preargs a) && allocated h (libraries a)
  && allocated h (objects a) && allocated h (runtime_library_dirs a)
  && allocated h (export_symbols a).

(** [h'] has every list of [h], with the same items. *)
Definition extends (h h' : gmap loc (list string)) : Prop :=
  forall l, l ∈ dom h -> h' !! l = h !! l.

Section LinkVocabulary.

Variable os_path : os.path.

(** The path of the definition file: in the directory of the first
    object file, named after the output file without its extension. *)
Definition def_file_name (a : link_args) (object0 : string) : string :=
  os.join os_path (os.dirname os_path object0)
    ((os.splitext os_path (os.basename os_path (output_filename a))).1 +:+ ".def").

(** The lines of the definition file. *)
Definition def_file_contents (a : link_args) (export_symbols : list string)
  : list string :=
  ("LIBRARY " +:+ os.basename os_path (output_filename a))
    :: "EXPORTS" :: export_symbols.

End LinkVocabulary.

(** Export symbols are supplied, and the target is not an executable or
    the linker is [gcc]. *)
Definition def_file_expected (self : ccompiler) (a : link_args) : Prop :=
  export_symbols a <> None /\
  (target_desc a <> EXECUTABLE \/ linker_dll self = "gcc").

(** The same, as the program tests it. *)
Definition generates_def_file (self : ccompiler) (a : link_args) : bool :=
  match export_symbols a with
  | Some _ => def_file_wanted self a
  | None => false
  end.

(** The arguments handed to the base class: the caller's, with the three
    copies in place of the caller's lists and no export symbols. *)
Definition passed_on (a : link_args) (extra_preargs libraries objects : loc)
  : link_args :=
  {| target_desc := target_desc a;
     objects := Some objects;
     output_filename := output_filename a;
     output_dir := output_dir a;
     libraries := Some libraries;
     library_dirs := library_dirs a;
     runtime_library_dirs := runtime_library_dirs a;
     export_symbols := None;
     debug := debug a;
     extra_preargs := Some extra_preargs;
     extra_postargs := extra_postargs a;
     build_temp := build_temp a;
     target_lang := target_lang a |}.

(** The warning a request for runtime library directories causes. *)
Definition unsupported_warning (runtime_library_dirs : list string) : list event :=
  match runtime_library_dirs with
  | [] => []
  | _ :: _ => [Warn _runtime_library_dirs_msg]
  end.

(** The events of [t] that ask for a file to be written. *)
Definition written (t : list event) : list (string * list string) :=
  omap (fun e => match e with
                 | Execute_write_file f c _ => Some (f, c)
                 | _ => None
                 end) t.

(** A link step that reports the lists it is given and leaves the store
    alone; it stands for [UnixCCompiler.link] where the model is run. *)
Definition reporting_link (self : ccompiler) (a : link_args) : M unit :=
  objects <- or_empty_items (objects a) ;;
  libraries <- or_empty_items (libraries a) ;;
  extra_preargs <- or_empty_items (extra_preargs a) ;;
  emit (Link_step objects libraries extra_preargs).

(** The base link step changes no list of the store other than the three
    it is handed as [objects], [libraries] and [extra_preargs]. *)
Definition base_link_frame (U : ccompiler -> link_args -> M unit) : Prop :=
  forall self args h l,
    l ∈ dom h ->
    Some l <> objects args -> Some l <> libraries args ->
    Some l <> extra_preargs args ->
    final (U self args h) !! l = h !! l.

(** ** Sample inputs *)

(** A version string of an MSVC-built interpreter, and one of a GCC-built
    interpreter. *)
Definition msvc_version : string :=
  "3.10.11 (tags/v3.10.11:7d4cc5a, Apr  5 2023, 00:38:17) [MSC v.1929 64 bit (AMD64)]".

Definition gcc_version : string :=
  "3.10.12 (main, Jun 11 2023, 05:26:28) [GCC 11.4.0]".

Definition sample_env (version : string) : environment :=
  {| sys_version := version;
     environ_CC := None;
     environ_CXX := None;
     config_h_filename := "/usr/include/python3.10/pyconfig.h";
     config_h := read_text "#define __GNUC__ 11" |}.

(** [repr] on a string without quotes or backslashes. *)
Definition repr_plain (s : string) : string := "'" +:+ s +:+ "'".

(** The adapter as [CygwinCCompiler()] sets it up with [CC] and [CXX]
    unset, for a given resolver answer. *)
Definition sample_compiler (dll : option (list string)) : ccompiler :=
  {| ctype := cygwin; cc := "gcc"; cxx := "g++"; linker_dll := "gcc";
     exes := {| compiler := "gcc -mcygwin -O -Wall";
                compiler_so := "gcc -mcygwin -mdll -O -Wall";
                compiler_cxx := "g++ -mcygwin -O -Wall";
                linker_exe := "gcc -mcygwin";
                linker_so := "gcc -mcygwin -shared" |};
     dll_libraries := dll |}.

(** The caller's lists: objects, export symbols, libraries, pre-link
    arguments, runtime library directories, and an empty list. *)
Definition sample_heap : gmap loc (list string) :=
  <[1%positive := ["build/temp/foo.o"; "build/temp/bar.o"]]>
  (<[2%positive := ["foo"; "bar"]]>
  (<[3%positive := ["m"]]>
  (<[4%positive := ["-v"]]>
  (<[5%positive := ["/opt/lib"]]>
  (<[6%positive := []]> ∅))))).

Definition sample_call : link_args :=
  {| target_desc := SHARED_OBJECT;
     objects := Some 1%positive;
     output_filename := "mylib.dll";
     output_dir := None;
     libraries := Some 3%positive;
     library_dirs := None;
     runtime_library_dirs := Some 5%positive;
     export_symbols := Some 2%positive;
     debug := 0;
     extra_preargs := Some 4%positive;
     extra_postargs := None;
     build_temp := None;
     target_lang := None |}.

(** The same call with the debug flag set. *)
Definition sample_call_debug : link_args :=
  {| target_desc := SHARED_OBJECT;
     objects := Some 1%positive;
     output_filename := "mylib.dll";
     output_dir := None;
     libraries := Some 3%positive;
     library_dirs := None;
     runtime_library_dirs := Some 5%positive;
     export_symbols := Some 2%positive;
     debug := 1;
     extra_preargs := Some 4%positive;
     extra_postargs := None;
     build_temp := None;
     target_lang := None |}.

(** A call that exports symbols and has no object file. *)
Definition sample_call_no_objects : link_args :=
  {| target_desc := SHARED_OBJECT;
     objects := Some 6%positive;
     output_filename := "mylib.dll";
     output_dir := None;
     libraries := None;
     library_dirs := None;
     runtime_library_dirs := None;
     export_symbols := Some 2%positive;
     debug := 0;
     extra_preargs := None;
     extra_postargs := None;
     build_temp := None;
     target_lang := None |}.

(** A call that exports an empty list of symbols. *)
Definition sample_call_no_symbols : link_args :=
  {| target_desc := SHARED_OBJECT;
     objects := Some 1%positive;
     output_filename := "mylib.dll";
     output_dir := None;
     libraries := None;
     library_dirs := None;
     runtime_library_dirs := None;
     export_symbols := Some 6%positive;
     debug := 0;
     extra_preargs := None;
     extra_postargs := None;
     build_temp := None;
     target_lang := None |}.

(** A call that hands the same list as objects, libraries and pre-link
    arguments. *)
Definition sample_call_aliased : link_args :=
  {| target_desc := EXECUTABLE;
     objects := Some 1%positive;
     output_filename := "prog.exe";
     output_dir := None;
     libraries := Some 1%positive;
     library_dirs := Some 1%positive;
     runtime_library_dirs := None;
     export_symbols := None;
     debug := 0;
     extra_preargs := Some 1%positive;
     extra_postargs := None;
     build_temp := None;
     target_lang := None |}.

(** A file system on which every write succeeds. *)
Definition write_succeeds (filename : string) (contents : list string)
  : option exn := None.

(** A [shlex.split] for a command that is one plain word. *)
Definition split_one_word (cc : string) : result (list string) := Ok [cc].

Definition newline : string := String (ascii_of_N 10) EmptyString.

(** What [gcc -dumpmachine] prints under Cygwin and under MinGW. *)
Definition dumpmachine_cygwin (argv : list string) : result string :=
  Ok ("x86_64-pc-cygwin" +:+ newline).

Definition dumpmachine_mingw (argv : list string) : result string :=
  Ok ("x86_64-w64-mingw32" +:+ newline).

(** A base derivation that answers the name it is given. *)
Definition echo_make_out_path (output_dir : string) (strip_dir : bool)
    (src_name : string) : result string := Ok src_name.

(** ** Vocabulary of the further properties *)

(** [is_space] on every character. *)
Fixpoint all_space (s : string) : bool :=
  match s with
  | EmptyString => true
  | String c s' => is_space c && all_space s'
  end.

(** The status of a check that returned. *)
Definition status_of (r : result (config_h_status * string)) : option config_h_status :=
  match r with
  | Ok (status, _) => Some status
  | Raise _ => None
  end.

(** The warnings among the events of [t]. *)
Definition warnings (t : list event) : list string :=
  omap (fun e => match e with Warn msg => Some msg | _ => None end) t.

(** A [spawn] that fails on [windres] and runs everything else. *)
Definition spawn_without_windres (cmd : list string) : spawn_outcome :=
  match cmd with
  | "windres" :: _ => spawn_DistutilsExecError "command 'windres' failed: No such file or directory"
  | _ => spawn_returns
  end.

(** Splitting a command line at its blanks. *)
Fixpoint split_blanks_from (word : string) (s : string) : list string :=
  match s with
  | EmptyString => match word with EmptyString => [] | _ => [word] end
  | String c s' =>
      if Ascii.eqb c " " then
        match word with
        | EmptyString => split_blanks_from EmptyString s'
        | _ => word :: split_blanks_from EmptyString s'
        end
      else split_blanks_from (word +:+ String c EmptyString) s'
  end.

Definition split_blanks (s : string) : list string := split_blanks_from EmptyString s.

(** An environment with [CC] set. *)
Definition sample_env_cc (version cc : string) : environment :=
  {| sys_version := version;
     environ_CC := Some cc;
     environ_CXX := None;
     config_h_filename := "/usr/include/python3.10/pyconfig.h";
     config_h := read_OSError "No such file or directory" |}.


(** A file system on which no write succeeds. *)
Definition write_fails (filename : string) (contents : list string)
  : option exn := Some (ExternalError "Permission denied").


(** * Properties *)

(** ** The runtime-library resolver *)

Lemma find_boundary_inv (m : RangeMap.t) (item : Z) :
  forall best,
    (forall kb xb, best = Some (kb, xb) -> kb <= item) ->
    match RangeMap.find_boundary m item best with
    | Some (b, x) =>
        ((b, x) ∈ m \/ best = Some (b, x)) /\ b <= item /\
        (forall k, k ∈ RangeMap.keys m -> k <= item -> k <= b) /\
        (forall kb xb, best = Some (kb, xb) -> kb <= b)
    | None => best = None /\ forall k, k ∈ RangeMap.keys m -> ~ k <= item
    end.
Proof.
  induction m as [|[k x] m IH]; intros best Hbest; simpl.
  - destruct best as [[kb xb]|].
    + repeat split; eauto.
      * intros k Hk. inversion Hk.
      * intros ? ? [= <- <-]. lia.
    + split; [reflexivity|]. intros k Hk. inversion Hk.
  - set (best' := if k <=? item then _ else _).
    assert (Hbest' : forall kb xb, best' = Some (kb, xb) -> kb <= item).
    { subst best'. intros kb xb. destruct (Z.leb_spec k item).
      - destruct best as [[kb0 xb0]|].
        + destruct (Z.ltb_spec kb0 k); intros [= <- <-]; eauto.
        + intros [= <- <-]. lia.
      - apply Hbest. }
    specialize (IH best' Hbest').
    destruct (RangeMap.find_boundary m item best') as [[b y]|].
    + destruct IH as (Hin & Hle & Hmax & Hprev).
      assert (Hk : k <= item -> k <= b).
      { intros Hki. subst best'. destruct (Z.leb_spec k item); [|lia].
        destruct best as [[kb0 xb0]|].
        - destruct (Z.ltb_spec kb0 k).
          + eapply Hprev. reflexivity.
          + specialize (Hprev kb0 xb0 eq_refl). lia.
        - eapply Hprev. reflexivity. }
      repeat split.
      * destruct Hin as [Hin|Hin]; [left; apply elem_of_cons; by right|].
        subst best'. destruct (k <=? item); [|by right].
        destruct best as [[kb0 xb0]|].
        -- destruct (kb0 <? k); [|by right].
           injection Hin as <- <-. left. apply elem_of_cons; by left.
        -- injection Hin as <- <-. left. apply elem_of_cons; by left.
      * exact Hle.
      * intros k' Hk' Hle'. apply elem_of_cons in Hk' as [->|Hk'].
        -- simpl. by apply Hk.
        -- by apply Hmax.
      * intros kb xb ->. subst best'.
        destruct (Z.leb_spec k item).
        -- destruct (Z.ltb_spec kb k).
           ++ specialize (Hprev k x eq_refl). lia.
           ++ by eapply Hprev.
        -- by eapply Hprev.
    + destruct IH as [Hnone Hall]. subst best'.
      destruct (Z.leb_spec k item).
      * destruct best as [[kb0 xb0]|]; [destruct (kb0 <? k)|]; discriminate.
      * split; [exact Hnone|]. intros k' Hk'.
        apply elem_of_cons in Hk' as [->|Hk']; [simpl; lia|by apply Hall].
Qed.

(** The lookup finds the greatest boundary [<=] the item, if there is
    one. *)
Lemma find_boundary_greatest (m : RangeMap.t) (item b : Z) (x : RangeMap.value) :
  RangeMap.find_boundary m item None = Some (b, x) ->
  (b, x) ∈ m /\ greatest_boundary m item b.
Proof.
  intros H.
  assert (Hnone : forall kb xb, @None (Z * RangeMap.value) = Some (kb, xb) -> kb <= item)
    by (intros; discriminate).
  pose proof (find_boundary_inv m item None Hnone) as Hinv.
  rewrite H in Hinv. destruct Hinv as ([Hin|?] & Hle & Hmax & _); [|discriminate].
  split; [exact Hin|]. repeat split; [|exact Hle|exact Hmax].
  unfold RangeMap.keys. apply list_elem_of_fmap. by exists (b, x).
Qed.

Lemma find_boundary_none (m : RangeMap.t) (item : Z) :
  RangeMap.find_boundary m item None = None ->
  forall k, k ∈ RangeMap.keys m -> item < k.
Proof.
  intros H k Hk.
  assert (Hnone : forall kb xb, @None (Z * RangeMap.value) = Some (kb, xb) -> kb <= item)
    by (intros; discriminate).
  pose proof (find_boundary_inv m item None Hnone) as Hinv.
  rewrite H in Hinv. destruct Hinv as [_ Hall].
  specialize (Hall k Hk). lia.
Qed.

Lemma greatest_boundary_unique (m : RangeMap.t) (v b1 b2 : Z) :
  greatest_boundary m v b1 -> greatest_boundary m v b2 -> b1 = b2.
Proof.
  intros (Hin1 & Hle1 & Hmax1) (Hin2 & Hle2 & Hmax2).
  specialize (Hmax1 b2 Hin2 Hle2). specialize (Hmax2 b1 Hin1 Hle1). lia.
Qed.

Lemma msvcr_lookup_entries (b : Z) (x : RangeMap.value) :
  (b, x) ∈ _msvcr_lookup ->
  (b < 2000 /\ exists l, x = RangeMap.libs l) \/
  (b = 2000 /\ x = RangeMap.undefined_value).
Proof.
  unfold _msvcr_lookup. intros H.
  repeat (apply elem_of_cons in H as [[= -> ->]|H];
          [first [left; split; [lia|eexists; reflexivity] | right; split; reflexivity]|]).
  inversion H.
Qed.

Lemma find_boundary_cons (k : Z) (x : RangeMap.value) (m : RangeMap.t)
    (item : Z) (best : option (Z * RangeMap.value)) :
  RangeMap.find_boundary ((k, x) :: m) item best =
    RangeMap.find_boundary m item
      (if k <=? item then
         match best with
         | Some (kb, _) => if kb <? k then Some (k, x) else best
         | None => Some (k, x)
         end
       else best).
Proof. reflexivity. Qed.

(** One entry of the table, for a version whose range is known. *)
Ltac step_boundary v :=
  rewrite find_boundary_cons;
  first [ rewrite (proj2 (Z.leb_le _ v)) by lia
        | rewrite (proj2 (Z.leb_gt _ v)) by lia ];
  cbn -[RangeMap.find_boundary].

(** The table as a function of the version: below the first boundary and
    from the sentinel on the lookup raises [KeyError]. *)
Lemma msvcr_lookup_ranges (v : Z) :
  RangeMap.getitem _msvcr_lookup v =
    if v <? 1300 then Raise (KeyError v)
    else if v <? 1310 then Ok ["msvcr70"]
    else if v <? 1400 then Ok ["msvcr71"]
    else if v <? 1500 then Ok ["msvcr80"]
    else if v <? 1600 then Ok ["msvcr90"]
    else if v <? 1700 then Ok ["msvcr100"]
    else if v <? 1800 then Ok ["msvcr110"]
    else if v <? 1900 then Ok ["msvcr120"]
    else if v <? 2000 then Ok ["vcruntime140"]
    else Raise (KeyError 2000).
Proof.
  unfold RangeMap.getitem, _msvcr_lookup.
  repeat match goal with
         | |- context [v <? ?a] => destruct (Z.ltb_spec v a)
         end; repeat step_boundary v; reflexivity.
Qed.

Lemma msc_ver_of_Some (sys_version : string) (v : Z) :
  msc_ver_of sys_version = Some v ->
  exists g, re_search_msc sys_version = Some g /\ int g = v.
Proof.
  unfold msc_ver_of. destruct (re_search_msc sys_version) as [g|]; simpl.
  - intros [= <-]. by exists g.
  - discriminate.
Qed.

(** C1: when the version string carries the marker with value [v], a [v]
    in [1300, 2000) resolves to the library list that the table associates
    with the greatest boundary [<= v], and a [v] of 2000 or more raises the
    value error "Unknown MS Compiler version". *)
Theorem get_msvcr_resolves (sys_version : string) (v : Z) :
  msc_ver_of sys_version = Some v ->
  (1300 <= v < 2000 ->
   exists b l,
     greatest_boundary _msvcr_lookup v b /\
     (b, RangeMap.libs l) ∈ _msvcr_lookup /\
     get_msvcr sys_version = Ok (Some l)) /\
  (2000 <= v ->
   get_msvcr sys_version =
     Raise (ValueError ("Unknown MS Compiler version " +:+ str v +:+ " "))).
Proof.
  intros (g & Hg & Hv)%msc_ver_of_Some. unfold get_msvcr. rewrite Hg, Hv.
  unfold RangeMap.getitem. split; intros Hrange.
  - destruct (RangeMap.find_boundary _msvcr_lookup v None) as [[b x]|] eqn:Hfind.
    + apply find_boundary_greatest in Hfind as [Hin Hgreat].
      destruct (msvcr_lookup_entries b x Hin) as [(_ & l & ->)|(-> & _)].
      * by exists b, l.
      * destruct Hgreat as (_ & Hle & _). lia.
    + pose proof (find_boundary_none _ _ Hfind 1300) as Hlt.
      assert (1300 ∈ RangeMap.keys _msvcr_lookup) as Hin by (apply elem_of_cons; by left).
      specialize (Hlt Hin). lia.
  - rewrite <- (Z.ltb_ge v 2000) in Hrange.
    pose proof (msvcr_lookup_ranges v) as Htab. unfold RangeMap.getitem in Htab.
    assert (Hlt : forall k, k <= 2000 -> (v <? k) = false).
    { intros k Hk. apply Z.ltb_ge. apply Z.ltb_ge in Hrange. lia. }
    rewrite !Hlt in Htab by lia.
    destruct (RangeMap.find_boundary _msvcr_lookup v None) as [[b [l|]]|];
      by inversion Htab.
Qed.

Lemma get_msvcr_resolves_witness :
  (exists b l,
     greatest_boundary _msvcr_lookup 1929 b /\
     (b, RangeMap.libs l) ∈ _msvcr_lookup /\
     get_msvcr "3.10.11 (tags/v3.10.11:7d4cc5a, Apr  5 2023, 00:38:17) [MSC v.1929 64 bit (AMD64)]"
     = Ok (Some l)) /\
  get_msvcr "3.99.0 [MSC v.2000 64 bit (AMD64)]"
  = Raise (ValueError ("Unknown MS Compiler version " +:+ str 2000 +:+ " ")).
Proof.
  split.
  - apply (get_msvcr_resolves _ 1929); [vm_compute; reflexivity | lia].
  - apply (get_msvcr_resolves _ 2000); [vm_compute; reflexivity | lia].
Defined.

(** The ranges the table spells out, read off the version string. *)
Lemma get_msvcr_ranges (sys_version : string) (v : Z) :
  msc_ver_of sys_version = Some v ->
  get_msvcr sys_version =
    if v <? 1300 then Raise (ValueError ("Unknown MS Compiler version " +:+ str v +:+ " "))
    else if v <? 1310 then Ok (Some ["msvcr70"])
    else if v <? 1400 then Ok (Some ["msvcr71"])
    else if v <? 1500 then Ok (Some ["msvcr80"])
    else if v <? 1600 then Ok (Some ["msvcr90"])
    else if v <? 1700 then Ok (Some ["msvcr100"])
    else if v <? 1800 then Ok (Some ["msvcr110"])
    else if v <? 1900 then Ok (Some ["msvcr120"])
    else if v <? 2000 then Ok (Some ["vcruntime140"])
    else Raise (ValueError ("Unknown MS Compiler version " +:+ str v +:+ " ")).
Proof.
  intros (g & Hg & Hv)%msc_ver_of_Some. unfold get_msvcr.
  rewrite Hg, Hv, msvcr_lookup_ranges.
  repeat match goal with |- context [v <? ?a] => destruct (v <? a) end; reflexivity.
Qed.

Example get_msvcr_1300 :
  get_msvcr "2.7 [MSC v.1300 32 bit (Intel)]" = Ok (Some ["msvcr70"]).
Proof. vm_compute. reflexivity. Qed.

Example get_msvcr_1999 :
  get_msvcr "3.8 [MSC v.1999 64 bit (AMD64)]" = Ok (Some ["vcruntime140"]).
Proof. vm_compute. reflexivity. Qed.

Example get_msvcr_gcc : get_msvcr gcc_version = Ok None.
Proof. vm_compute. reflexivity. Qed.

(** Without the marker the resolver returns [None]. *)
Lemma get_msvcr_no_marker (sys_version : string) :
  msc_ver_of sys_version = None -> get_msvcr sys_version = Ok None.
Proof.
  unfold msc_ver_of, get_msvcr.
  destruct (re_search_msc sys_version); [discriminate|reflexivity].
Qed.

(** The group is always four digits, so the version read off the string
    is below 10000. *)
Lemma int_digits_bound (s : string) :
  all_digits s = true ->
  forall acc, 0 <= acc ->
    0 <= int_digits acc s < (acc + 1) * 10 ^ Z.of_nat (String.length s).
Proof.
  induction s as [|c s IH]; cbn [int_digits String.length all_digits];
    intros Hd acc Hacc.
  - simpl. lia.
  - apply andb_prop in Hd as [Hc Hs].
    assert (0 <= digit_value c <= 9) as Hdv.
    { unfold is_digit in Hc. unfold digit_value.
      apply andb_prop in Hc as [H1 H2].
      apply N.leb_le in H1, H2. lia. }
    specialize (IH Hs (10 * acc + digit_value c) ltac:(lia)).
    rewrite Nat2Z.inj_succ, Z.pow_succ_r by lia. nia.
Qed.

Lemma match_msc_here_digits (s g : string) :
  match_msc_here s = Some g -> String.length g = 4%nat /\ all_digits g = true.
Proof.
  unfold match_msc_here. destruct (startswith "MSC v." s); [|discriminate].
  destruct (String.length _ =? 4)%nat eqn:Hlen; simpl; [|discriminate].
  destruct (all_digits _) eqn:Hd; [|discriminate].
  intros [= <-]. split; [by apply Nat.eqb_eq|exact Hd].
Qed.

Lemma re_search_msc_digits (s g : string) :
  re_search_msc s = Some g -> String.length g = 4%nat /\ all_digits g = true.
Proof.
  induction s as [|c s IH]; cbn [re_search_msc].
  - discriminate.
  - destruct (match_msc_here (String c s)) eqn:H.
    + intros [= <-]. by eapply match_msc_here_digits.
    + exact IH.
Qed.

Lemma msc_ver_of_bound (sys_version : string) (v : Z) :
  msc_ver_of sys_version = Some v -> 0 <= v < 10000.
Proof.
  intros (g & Hg & <-)%msc_ver_of_Some.
  apply re_search_msc_digits in Hg as [Hlen Hd].
  pose proof (int_digits_bound g Hd 0 ltac:(lia)) as H.
  rewrite Hlen in H. unfold int. simpl in H. lia.
Qed.

Lemma take_str_app (d post : string) :
  take_str (String.length d) (d +:+ post) = d.
Proof. induction d as [|c d IH]; simpl; [by destruct post|by rewrite IH]. Qed.

Lemma match_msc_here_marker (d post : string) :
  String.length d = 4%nat -> all_digits d = true ->
  match_msc_here ("MSC v." +:+ d +:+ post) = Some d.
Proof.
  intros Hlen Hd. unfold match_msc_here.
  change (startswith "MSC v." ("MSC v." +:+ d +:+ post)) with true.
  change (drop_str 6 ("MSC v." +:+ d +:+ post)) with (d +:+ post).
  assert (take_str 4 (d +:+ post) = d) as ->
    by (rewrite <- Hlen; apply take_str_app).
  cbv iota. rewrite Hlen, Hd. reflexivity.
Qed.

(** What "the version string contains the marker with value [v]" means:
    the marker, four digits spelling [v], and no earlier place where a
    match could start. *)
Lemma msc_ver_of_marker (pre d post : string) :
  lacks_char "M" pre = true ->
  String.length d = 4%nat -> all_digits d = true ->
  msc_ver_of (pre +:+ "MSC v." +:+ d +:+ post) = Some (int d).
Proof.
  intros Hpre Hlen Hd. unfold msc_ver_of.
  enough (re_search_msc (pre +:+ "MSC v." +:+ d +:+ post) = Some d) as -> by done.
  induction pre as [|c pre IH].
  - change (EmptyString +:+ "MSC v." +:+ d +:+ post) with ("MSC v." +:+ d +:+ post).
    pose proof (match_msc_here_marker d post Hlen Hd) as Hm.
    change ("MSC v." +:+ d +:+ post)
      with (String "M" ("SC v." +:+ d +:+ post)) in *.
    cbn [re_search_msc]. by rewrite Hm.
  - cbn [lacks_char] in Hpre. apply andb_prop in Hpre as [Hc Hpre].
    change (String c pre +:+ "MSC v." +:+ d +:+ post)
      with (String c (pre +:+ "MSC v." +:+ d +:+ post)).
    cbn [re_search_msc].
    assert (match_msc_here (String c (pre +:+ "MSC v." +:+ d +:+ post)) = None) as ->.
    { unfold match_msc_here. cbn [startswith].
      destruct (Ascii.eqb_spec "M" c) as [<-|_]; [discriminate Hc|reflexivity]. }
    by apply IH.
Qed.

Example msc_ver_of_1929 :
  msc_ver_of "3.10.11 (tags/v3.10.11:7d4cc5a, Apr  5 2023, 00:38:17) [MSC v.1929 64 bit (AMD64)]"
  = Some 1929.
Proof.
  apply (msc_ver_of_marker "3.10.11 (tags/v3.10.11:7d4cc5a, Apr  5 2023, 00:38:17) ["
                           "1929" " 64 bit (AMD64)]"); reflexivity.
Qed.

(** ** The store and the computations on it *)

Lemma after_nil {A} (r : run A) : after [] r = r.
Proof. by destruct r. Qed.

Lemma bind_ok {A B} (m : M A) (k : A -> M B) h h' t a :
  m h = Run h' t (Ok a) -> bind m k h = after t (k a h').
Proof. unfold bind. by intros ->. Qed.

Lemma bind_raise {A B} (m : M A) (k : A -> M B) h h' t e :
  m h = Run h' t (Raise e) -> bind m k h = Run h' t (Raise e).
Proof. unfold bind. by intros ->. Qed.

Lemma bind_assoc {A B C} (m : M A) (k : A -> M B) (k' : B -> M C) h :
  bind (bind m k) k' h = bind m (fun a => bind (k a) k') h.
Proof.
  unfold bind. destruct (m h) as [h1 t1 [a|e]]; [|reflexivity].
  destruct (k a h1) as [h2 t2 [b|e]]; simpl; [|reflexivity].
  destruct (k' b h2) as [h3 t3 v]. unfold after. simpl. by rewrite app_assoc.
Qed.

Lemma load_Some l h xs : h !! l = Some xs -> load l h = Run h [] (Ok xs).
Proof. unfold load. by intros ->. Qed.

Lemma extends_dom h h' l : extends h h' -> l ∈ dom h -> l ∈ dom h'.
Proof.
  intros He Hl. apply elem_of_dom. rewrite (He l Hl). by apply elem_of_dom.
Qed.

Lemma extends_trans h1 h2 h3 : extends h1 h2 -> extends h2 h3 -> extends h1 h3.
Proof.
  intros H12 H23 l Hl. rewrite <- (H12 l Hl). apply H23. by eapply extends_dom.
Qed.

Lemma extends_insert h l xs : l ∉ dom h -> extends h (<[l := xs]> h).
Proof.
  intros Hl l' Hl'. apply lookup_insert_ne. intros ->. contradiction.
Qed.

Lemma extends_lookup h h' l xs : extends h h' -> h !! l = Some xs -> h' !! l = Some xs.
Proof.
  intros He Hl. rewrite <- Hl. apply He. apply elem_of_dom. by exists xs.
Qed.

Lemma extends_items h h' x :
  extends h h' -> allocated h x = true -> items h' x = items h x.
Proof.
  intros He. destruct x as [l|]; simpl; [|reflexivity].
  intros [xs Hxs]%bool_decide_eq_true. by rewrite (extends_lookup _ _ _ _ He Hxs), Hxs.
Qed.

Lemma extends_allocated h h' x :
  extends h h' -> allocated h x = true -> allocated h' x = true.
Proof.
  intros He. destruct x as [l|]; simpl; [|reflexivity].
  intros [xs Hxs]%bool_decide_eq_true. apply bool_decide_eq_true.
  exists xs. by eapply extends_lookup.
Qed.

(** [copy.copy(x or [])] gives a list that the store did not have, with
    the items of [x], and leaves the lists of the store as they are. *)
Lemma copy_fresh (x : option loc) (h : gmap loc (list string)) :
  allocated h x = true ->
  exists l' h',
    bind (or_empty_list x) copy_copy h = Run h' [] (Ok l') /\
    (l' ∉ dom h) /\ h' !! l' = Some (items h x) /\ extends h h'.
Proof.
  assert (Hnil : exists l' h',
             bind (new_list []) copy_copy h = Run h' [] (Ok l') /\
             (l' ∉ dom h) /\ h' !! l' = Some [] /\ extends h h').
  { set (l1 := fresh (dom h)). set (h1 := <[l1 := []]> h).
    set (l2 := fresh (dom h1)).
    assert (l1 ∉ dom h) as Hl1 by apply is_fresh.
    assert (l2 ∉ dom h1) as Hl2 by apply is_fresh.
    exists l2, (<[l2 := []]> h1). split; [|split; [|split]].
    - unfold bind, new_list, copy_copy, bind, load. fold l1. fold h1.
      unfold h1 at 1. rewrite lookup_insert_eq. reflexivity.
    - intros Hin. apply Hl2. unfold h1. rewrite dom_insert_L. set_solver.
    - apply lookup_insert_eq.
    - eapply extends_trans; [by apply extends_insert|by apply extends_insert]. }
  destruct x as [l|]; simpl; [|intros _; exact Hnil].
  intros [xs Hxs]%bool_decide_eq_true. rewrite Hxs. simpl.
  destruct xs as [|y ys].
  - destruct Hnil as (l' & h' & Hrun & Hrest). exists l', h'. split; [|exact Hrest].
    rewrite <- Hrun. unfold bind at 1 3. unfold bind at 1. rewrite (load_Some _ _ _ Hxs).
    simpl. by destruct (new_list [] h) as [? ? [?|?]].
  - set (l1 := fresh (dom h)).
    assert (l1 ∉ dom h) as Hl1 by apply is_fresh.
    exists l1, (<[l1 := y :: ys]> h). split; [|split; [|split]].
    + unfold bind, load, ret, copy_copy, bind, load, new_list. rewrite Hxs. simpl.
      rewrite Hxs. reflexivity.
    + exact Hl1.
    + apply lookup_insert_eq.
    + by apply extends_insert.
Qed.

Lemma truthy_run (x : option loc) (h : gmap loc (list string)) :
  allocated h x = true ->
  truthy x h = Run h [] (Ok (match items h x with [] => false | _ :: _ => true end)).
Proof.
  destruct x as [l|]; simpl; [|reflexivity].
  intros [xs Hxs]%bool_decide_eq_true. unfold bind. rewrite (load_Some _ _ _ Hxs).
  rewrite Hxs. reflexivity.
Qed.

Lemma list_extend_run l h xs ys :
  h !! l = Some xs ->
  list_extend l (Some ys) h = Run (<[l := xs ++ ys]> h) [] (Ok tt).
Proof. intros H. unfold list_extend, bind. by rewrite (load_Some _ _ _ H). Qed.

Lemma list_append_run l h xs x :
  h !! l = Some xs ->
  list_append l x h = Run (<[l := xs ++ [x]]> h) [] (Ok tt).
Proof. intros H. unfold list_append, bind. by rewrite (load_Some _ _ _ H). Qed.

Lemma list_getitem_0_run l h xs :
  h !! l = Some xs ->
  list_getitem_0 l h =
    Run h [] (match xs with
              | [] => Raise (IndexError "list index out of range")
              | x :: _ => Ok x
              end).
Proof.
  intros H. unfold list_getitem_0, bind. rewrite (load_Some _ _ _ H).
  by destruct xs.
Qed.

(** The three copies [link] starts with. *)
Lemma link_copies (a : link_args) (h : gmap loc (list string)) :
  valid_call h a = true ->
  exists lp ll lo h3,
    (lp ∉ dom h) /\ (ll ∉ dom h) /\ (lo ∉ dom h) /\
    lp <> ll /\ lp <> lo /\ ll <> lo /\
    extends h h3 /\
    h3 !! lp = Some (items h (extra_preargs a)) /\
    h3 !! ll = Some (items h (libraries a)) /\
    h3 !! lo = Some (items h (objects a)) /\
    forall B (k : loc -> loc -> loc -> M B),
      (p <- bind (or_empty_list (extra_preargs a)) copy_copy ;;
       l <- bind (or_empty_list (libraries a)) copy_copy ;;
       o <- bind (or_empty_list (objects a)) copy_copy ;;
       k p l o) h = k lp ll lo h3.
Proof.
  unfold valid_call. intros Hv.
  repeat (apply andb_prop in Hv as [Hv ?]).
  assert (Ha1 : allocated h (extra_preargs a) = true) by done.
  destruct (copy_fresh _ _ Ha1) as (lp & h1 & Hr1 & Hlp & Hp1 & He1).
  assert (Ha2 : allocated h1 (libraries a) = true) by (by eapply extends_allocated).
  destruct (copy_fresh _ _ Ha2) as (ll & h2 & Hr2 & Hll & Hp2 & He2).
  pose proof (extends_trans _ _ _ He1 He2) as He12.
  assert (Ha3 : allocated h2 (objects a) = true) by (by eapply extends_allocated).
  destruct (copy_fresh _ _ Ha3) as (lo & h3 & Hr3 & Hlo & Hp3 & He3).
  pose proof (extends_trans _ _ _ He12 He3) as He13.
  assert (lp ∈ dom h1) as Hlp1 by (apply elem_of_dom; by eexists).
  assert (ll ∈ dom h2) as Hll2 by (apply elem_of_dom; by eexists).
  pose proof (extends_dom _ _ _ He2 Hlp1) as Hlp2.
  exists lp, ll, lo, h3. repeat split.
  - exact Hlp.
  - intros Hin. apply Hll. exact (extends_dom _ _ _ He1 Hin).
  - intros Hin. apply Hlo. exact (extends_dom _ _ _ He12 Hin).
  - intros ->. contradiction.
  - intros ->. contradiction.
  - intros ->. contradiction.
  - exact He13.
  - rewrite (extends_trans _ _ _ He2 He3 lp Hlp1). exact Hp1.
  - rewrite (He3 ll Hll2), Hp2. f_equal. by apply extends_items.
  - rewrite Hp3. f_equal. by apply extends_items.
  - intros B k.
    rewrite (bind_ok _ _ _ _ _ _ Hr1), after_nil.
    rewrite (bind_ok _ _ _ _ _ _ Hr2), after_nil.
    rewrite (bind_ok _ _ _ _ _ _ Hr3), after_nil. reflexivity.
Qed.

Lemma bind_raise_here {A B} (e : exn) (k : A -> M B) h :
  bind (raise e) k h = Run h [] (Raise e).
Proof. reflexivity. Qed.

Lemma bind_ret {A B} (a : A) (k : A -> M B) h : bind (ret a) k h = k a h.
Proof. unfold bind, ret. apply after_nil. Qed.

Lemma bind_emit {B} (e : event) (k : unit -> M B) h :
  bind (emit e) k h = after [e] (k tt h).
Proof. reflexivity. Qed.

Lemma extends_insert_fresh h h' l xs :
  extends h h' -> l ∉ dom h -> extends h (<[l := xs]> h').
Proof.
  intros He Hl l' Hl'. rewrite lookup_insert_ne; [by apply He|].
  intros ->. contradiction.
Qed.

Section LinkOutcome.

Variable os_path : os.path.
Variable write_file_raises : string -> list string -> option exn.

(** What [link] has done when it reaches the base class, or raises. *)
Lemma link_prepare_outcome (self : ccompiler) (a : link_args)
    (h : gmap loc (list string)) :
  valid_call h a = true ->
  exists lp ll lo,
    (lp ∉ dom h) /\ (ll ∉ dom h) /\ (lo ∉ dom h) /\
    lp <> ll /\ lp <> lo /\ ll <> lo /\
    let r := link_prepare os_path write_file_raises self a h in
    let h' := final r in
    let pre := items h (extra_preargs a) in
    let libs := items h (libraries a) in
    let objs := items h (objects a) in
    let syms := items h (export_symbols a) in
    let warn := unsupported_warning (items h (runtime_library_dirs a)) in
    let pre' := if debug a =? 0 then pre ++ ["-s"] else pre in
    extends h h' /\
    match dll_libraries self with
    | None =>
        trace r = warn /\
        value r = Raise (TypeError "'NoneType' object is not iterable")
    | Some dll =>
        h' !! ll = Some (libs ++ dll) /\
        if generates_def_file self a then
          match objs with
          | [] =>
              trace r = warn /\
              value r = Raise (IndexError "list index out of range")
          | object0 :: _ =>
              let def_file := def_file_name os_path a object0 in
              let contents := def_file_contents os_path a syms in
              trace r =
                warn ++ [Execute_write_file def_file contents ("writing " +:+ def_file)] /\
              match write_file_raises def_file contents with
              | Some e => value r = Raise e
              | None =>
                  value r = Ok (passed_on a lp ll lo) /\
                  h' !! lo = Some (objs ++ [def_file]) /\
                  h' !! lp = Some pre'
              end
          end
        else
          trace r = warn /\
          value r = Ok (passed_on a lp ll lo) /\
          h' !! lo = Some objs /\
          h' !! lp = Some pre'
    end.
Proof.
  intros Hv.
  destruct (link_copies a h Hv)
    as (lp & ll & lo & h3 & Hlp & Hll & Hlo & Hpl & Hpo & Hlo' & He3 & Hp3 & Hl3 & Ho3 & Hcps).
  unfold valid_call in Hv.
  apply andb_prop in Hv as [Hv Hexp]. apply andb_prop in Hv as [_ Hrt].
  assert (Hrt3 : allocated h3 (runtime_library_dirs a) = true)
    by (by eapply extends_allocated).
  exists lp, ll, lo. do 6 (split; [done|]).
  cbv zeta. unfold link_prepare. rewrite Hcps.
  rewrite (bind_ok _ _ _ _ _ _ (truthy_run _ _ Hrt3)), after_nil.
  rewrite (extends_items _ _ _ He3) by done.
  set (warn := unsupported_warning (items h (runtime_library_dirs a))).
  set (pre := items h (extra_preargs a)) in *.
  set (libs := items h (libraries a)) in *.
  set (objs := items h (objects a)) in *.
  assert (Hwarn : forall B (k : unit -> M B) h0,
             bind (if match items h (runtime_library_dirs a) with
                      | [] => false | _ :: _ => true end
                   then emit (Warn _runtime_library_dirs_msg) else ret tt) k h0
             = after warn (k tt h0)).
  { intros B k h0. subst warn.
    destruct (items h (runtime_library_dirs a)); simpl.
    - rewrite bind_ret. by rewrite after_nil.
    - by rewrite bind_emit. }
  rewrite Hwarn. clear Hwarn.
  destruct (dll_libraries self) as [dll|].
  2:{ cbn [list_extend]. rewrite bind_raise_here. cbn. rewrite app_nil_r. done. }
  rewrite (bind_ok _ _ _ _ _ _ (list_extend_run _ _ _ dll Hl3)), after_nil.
  set (h4 := <[ll := libs ++ dll]> h3).
  assert (He4 : extends h h4) by (by apply extends_insert_fresh).
  assert (Hl4 : h4 !! ll = Some (libs ++ dll)) by apply lookup_insert_eq.
  assert (Ho4 : h4 !! lo = Some objs) by (unfold h4; by rewrite lookup_insert_ne).
  assert (Hp4 : h4 !! lp = Some pre) by (unfold h4; by rewrite lookup_insert_ne).
  (* the strip flag and the call, from any store that has the copies *)
  assert (Htail : forall h5 objs5,
             extends h h5 -> h5 !! ll = Some (libs ++ dll) ->
             h5 !! lo = Some objs5 -> h5 !! lp = Some pre ->
             let r := ((if debug a =? 0 then list_append lp "-s" else ret tt) ;;
                       ret (passed_on a lp ll lo)) h5 in
             extends h (final r) /\ final r !! ll = Some (libs ++ dll) /\
             trace r = [] /\ value r = Ok (passed_on a lp ll lo) /\
             final r !! lo = Some objs5 /\
             final r !! lp = Some (if debug a =? 0 then pre ++ ["-s"] else pre)).
  { intros h5 objs5 He5 Hl5 Ho5 Hp5. cbv zeta.
    destruct (debug a =? 0).
    - rewrite (bind_ok _ _ _ _ _ _ (list_append_run _ _ _ "-s" Hp5)), after_nil.
      cbn. repeat split.
      + by apply extends_insert_fresh.
      + by rewrite lookup_insert_ne.
      + by rewrite lookup_insert_ne.
      + apply lookup_insert_eq.
    - rewrite bind_ret. cbn. done. }
  unfold passed_on in *. unfold generates_def_file.
  destruct (export_symbols a) as [sl|] eqn:Hexp0;
    [destruct (def_file_wanted self a)|].
  - (* the def-file branch *)
    assert (Hs4 : h4 !! sl = Some (items h (Some sl))).
    { apply bool_decide_eq_true in Hexp as [syms Hsyms].
      simpl. rewrite Hsyms. simpl.
      by apply (extends_lookup _ _ _ _ He4). }
    unfold generate_def_file.
    rewrite bind_assoc.
    destruct objs as [|object0 objs'] eqn:Hobjs.
    + rewrite (bind_raise _ _ _ _ _ _ (list_getitem_0_run _ _ _ Ho4)).
      cbn. rewrite app_nil_r. done.
    + rewrite (bind_ok _ _ _ _ _ _ (list_getitem_0_run _ _ _ Ho4)), after_nil.
      unfold def_file_name, def_file_contents.
      destruct (os.splitext os_path (os.basename os_path (output_filename a)))
        as [dll_name dll_extension].
      cbn [fst].
      set (def_file := os.join os_path (os.dirname os_path object0) (dll_name +:+ ".def")).
      rewrite bind_assoc.
      rewrite (bind_ok _ _ _ _ _ _ (load_Some _ _ _ Hs4)), after_nil.
      unfold execute_write_file. rewrite !bind_assoc, bind_emit.
      destruct (write_file_raises def_file _) as [e|].
      * rewrite bind_raise_here. cbn. done.
      * rewrite bind_ret.
        rewrite (bind_ok _ _ _ _ _ _ (list_append_run _ _ _ def_file Ho4)), after_nil.
        set (h5 := <[lo := _]> h4).
        destruct (Htail h5 ((object0 :: objs') ++ [def_file])) as (? & ? & Ht & ? & ? & ?).
        { by apply extends_insert_fresh. }
        { unfold h5. by rewrite lookup_insert_ne. }
        { apply lookup_insert_eq. }
        { unfold h5. by rewrite lookup_insert_ne. }
        unfold after. cbn [final trace value]. rewrite Ht, !app_nil_r. done.
  - rewrite bind_ret.
    destruct (Htail h4 objs) as (? & ? & Ht & ? & ? & ?); try done.
    unfold after. cbn [final trace value]. rewrite Ht, !app_nil_r. done.
  - rewrite bind_ret.
    destruct (Htail h4 objs) as (? & ? & Ht & ? & ? & ?); try done.
    unfold after. cbn [final trace value]. rewrite Ht, !app_nil_r. done.
Qed.

Lemma generates_def_file_spec (self : ccompiler) (a : link_args) :
  generates_def_file self a = true <-> def_file_expected self a.
Proof.
  unfold generates_def_file, def_file_expected, def_file_wanted.
  destruct (export_symbols a) as [sl|].
  - rewrite orb_true_iff, bool_decide_eq_true, String.eqb_eq.
    split; [intros Hw; by split|intros [_ Hw]; exact Hw].
  - split; [discriminate|intros [Hn _]; by destruct Hn].
Qed.


Lemma written_app (t1 t2 : list event) : written (t1 ++ t2) = written t1 ++ written t2.
Proof. unfold written. apply omap_app. Qed.

Lemma written_warning (rt : list string) : written (unsupported_warning rt) = [].
Proof. by destruct rt. Qed.

Variable UnixCCompiler_link : ccompiler -> link_args -> M unit.

(** [link] is its own part followed by the base link step. *)
Lemma link_unfold (self : ccompiler) (a : link_args) (h : gmap loc (list string)) :
  link os_path write_file_raises UnixCCompiler_link self a h =
    let r := link_prepare os_path write_file_raises self a h in
    match value r with
    | Ok args => after (trace r) (UnixCCompiler_link self args (final r))
    | Raise e => Run (final r) (trace r) (Raise e)
    end.
Proof.
  unfold link, bind.
  by destruct (link_prepare os_path write_file_raises self a h) as [h' t [args|e]].
Qed.


(** C2: [link] generates the definition file whenever export symbols are
    supplied for a target that is not an executable (or with [gcc] as
    linker), the adapter has its runtime libraries and there is a first
    object: it then asks, once, for the file beside the first object to be
    written, and the lines it gives are the [LIBRARY] line naming the base
    name of the output file, the [EXPORTS] line, and the export symbols in
    the caller's order, and nothing else; this request comes before
    anything the base link step does.  No call of [link] asks for a file
    with other lines. *)
Theorem link_def_file_contents (self : ccompiler) (a : link_args)
    (h : gmap loc (list string)) :
  valid_call h a = true ->
  let r := link_prepare os_path write_file_raises self a h in
  let lines :=
    ["LIBRARY " +:+ os.basename os_path (output_filename a); "EXPORTS"]
    ++ items h (export_symbols a) in
  (forall filename contents,
     (filename, contents) ∈ written (trace r) -> contents = lines) /\
  (forall dll object0 rest,
     dll_libraries self = Some dll ->
     def_file_expected self a ->
     items h (objects a) = object0 :: rest ->
     written (trace r) = [(def_file_name os_path a object0, lines)] /\
     exists later,
       written (trace (link os_path write_file_raises UnixCCompiler_link self a h))
       = (def_file_name os_path a object0, lines) :: later).
Proof.
  intros Hv. cbv zeta.
  destruct (link_prepare_outcome self a h Hv) as (lp & ll & lo & _ & _ & _ & _ & _ & _ & Hout).
  cbv zeta in Hout. destruct Hout as [_ Hout]. split.
  - intros filename contents Hin.
    destruct (dll_libraries self) as [dll|].
    + destruct Hout as [_ Hout]. destruct (generates_def_file self a).
      * destruct (items h (objects a)) as [|object0 rest].
        -- destruct Hout as [Ht _]. rewrite Ht, written_warning in Hin.
           by apply elem_of_nil in Hin.
        -- destruct Hout as [Ht _]. rewrite Ht, written_app, written_warning in Hin.
           simpl in Hin. apply list_elem_of_singleton in Hin. by injection Hin as -> ->.
      * destruct Hout as [Ht _]. rewrite Ht, written_warning in Hin.
        by apply elem_of_nil in Hin.
    + destruct Hout as [Ht _]. rewrite Ht, written_warning in Hin.
      by apply elem_of_nil in Hin.
  - intros dll object0 rest Hdll Hexp Hobjs.
    rewrite Hdll in Hout. destruct Hout as [_ Hout].
    apply generates_def_file_spec in Hexp. rewrite Hexp, Hobjs in Hout.
    destruct Hout as [Ht _].
    assert (Hw : written (trace (link_prepare os_path write_file_raises self a h))
                 = [(def_file_name os_path a object0,
                     ["LIBRARY " +:+ os.basename os_path (output_filename a); "EXPORTS"]
                     ++ items h (export_symbols a))]).
    { by rewrite Ht, written_app, written_warning. }
    split; [exact Hw|]. rewrite link_unfold. cbv zeta.
    destruct (value (link_prepare os_path write_file_raises self a h)) as [args|e].
    + unfold after. cbn [trace]. rewrite written_app, Hw. by eexists.
    + cbn [trace]. rewrite Hw. by eexists.
Qed.



(** C8: a link call that asks for runtime library directories starts by
    emitting the warning, in either variant and whatever comes after;
    the Cygwin [runtime_library_dir_option] warns and gives no flags, the
    MinGW one raises the platform error. *)
Theorem link_reports_runtime_library_dirs (self : ccompiler) (a : link_args)
    (h : gmap loc (list string)) :
  valid_call h a = true ->
  items h (runtime_library_dirs a) <> [] ->
  (exists t,
     trace (link os_path write_file_raises UnixCCompiler_link self a h)
     = Warn _runtime_library_dirs_msg :: t) /\
  (forall dir h0,
     runtime_library_dir_option self dir h0 =
       match ctype self with
       | cygwin => Run h0 [Warn _runtime_library_dirs_msg] (Ok [])
       | mingw32 => Run h0 [] (Raise (DistutilsPlatformError _runtime_library_dirs_msg))
       end).
Proof.
  intros Hv Hrt. split.
  - rewrite link_unfold. cbv zeta.
    destruct (link_prepare_outcome self a h Hv) as (lp & ll & lo & _ & _ & _ & _ & _ & _ & Hout).
    cbv zeta in Hout. destruct Hout as [_ Hout].
    assert (Hw : exists t, trace (link_prepare os_path write_file_raises self a h)
                           = Warn _runtime_library_dirs_msg :: t).
    { destruct (items h (runtime_library_dirs a)) as [|d ds]; [done|].
      simpl in Hout.
      destruct (dll_libraries self) as [dll|]; [|destruct Hout as [-> _]; eauto].
      destruct Hout as [_ Hout]. destruct (generates_def_file self a).
      - destruct (items h (objects a)); destruct Hout as [-> _]; eauto.
      - destruct Hout as [-> _]; eauto. }
    destruct Hw as [t Ht].
    destruct (value (link_prepare os_path write_file_raises self a h)) as [args|e].
    + unfold after. cbn [trace]. rewrite Ht. eauto.
    + cbn [trace]. eauto.
  - intros dir h0. unfold runtime_library_dir_option. by destruct (ctype self).
Qed.

(** C9: the lists of the store, the caller's among them, are as they
    were when [link] reaches the base link step or raises; the three
    lists handed on are new ones; and if the base link step changes none
    but those, the caller's lists are as they were when [link] is over. *)
Theorem link_leaves_caller_lists (self : ccompiler) (a : link_args)
    (h : gmap loc (list string)) :
  valid_call h a = true ->
  extends h (final (link_prepare os_path write_file_raises self a h)) /\
  (forall args,
     value (link_prepare os_path write_file_raises self a h) = Ok args ->
     exists lp ll lo,
       extra_preargs args = Some lp /\ libraries args = Some ll /\
       objects args = Some lo /\
       (lp ∉ dom h) /\ (ll ∉ dom h) /\ (lo ∉ dom h)) /\
  (base_link_frame UnixCCompiler_link ->
   extends h (final (link os_path write_file_raises UnixCCompiler_link self a h))).
Proof.
  intros Hv.
  destruct (link_prepare_outcome self a h Hv) as (lp & ll & lo & Hlp & Hll & Hlo & _ & _ & _ & Hout).
  cbv zeta in Hout. destruct Hout as [Hext Hout].
  assert (Hargs : forall args,
             value (link_prepare os_path write_file_raises self a h) = Ok args ->
             args = passed_on a lp ll lo).
  { intros args Hargs. rewrite Hargs in Hout.
    destruct (dll_libraries self) as [dll|]; [|by destruct Hout].
    destruct Hout as [_ Hout]. destruct (generates_def_file self a).
    - destruct (items h (objects a)); [by destruct Hout|].
      destruct Hout as [_ Hout]. destruct (write_file_raises _ _); [done|].
      by destruct Hout as ([= ->] & _).
    - by destruct Hout as (_ & [= ->] & _). }
  split; [exact Hext|]. split.
  - intros args ->%Hargs. exists lp, ll, lo. done.
  - intros Hframe. rewrite link_unfold. cbv zeta.
    destruct (value (link_prepare os_path write_file_raises self a h)) as [args|e] eqn:Hval;
      [|exact Hext].
    rewrite (Hargs args eq_refl). unfold after. cbn [final].
    intros l Hl. rewrite <- (Hext l Hl). apply Hframe.
    + by eapply extends_dom.
    + simpl. intros [= ->]. contradiction.
    + simpl. intros [= ->]. contradiction.
    + simpl. intros [= ->]. contradiction.
Qed.

(** C10: a call that exports symbols under the condition of the
    definition file, with no object file, raises before any file is asked
    for, and on an adapter whose runtime libraries are resolved the
    exception is the index error of [objects[0]]; with at least one
    object file the definition file is asked for even when the list of
    symbols is empty, and then holds the two header lines only. *)
Theorem link_export_needs_objects (self : ccompiler) (a : link_args)
    (h : gmap loc (list string)) :
  valid_call h a = true ->
  def_file_expected self a ->
  let r := link os_path write_file_raises UnixCCompiler_link self a h in
  (items h (objects a) = [] ->
   written (trace r) = [] /\
   (exists e, value r = Raise e) /\
   (dll_libraries self <> None ->
    value r = Raise (IndexError "list index out of range"))) /\
  (forall object0 rest,
     dll_libraries self <> None ->
     items h (objects a) = object0 :: rest ->
     items h (export_symbols a) = [] ->
     written (trace (link_prepare os_path write_file_raises self a h)) =
       [(def_file_name os_path a object0,
         ["LIBRARY " +:+ os.basename os_path (output_filename a); "EXPORTS"])]).
Proof.
  intros Hv Hexp%generates_def_file_spec r. subst r.
  destruct (link_prepare_outcome self a h Hv) as (lp & ll & lo & _ & _ & _ & _ & _ & _ & Hout).
  cbv zeta in Hout. destruct Hout as [_ Hout]. rewrite Hexp in Hout. split.
  - intros Hobjs. rewrite link_unfold. cbv zeta. rewrite Hobjs in Hout.
    destruct (dll_libraries self) as [dll|].
    + destruct Hout as (_ & Ht & ->). cbn [trace value]. rewrite Ht, written_warning.
      split; [reflexivity|]. split; [eauto|done].
    + destruct Hout as (Ht & ->). cbn [trace value]. rewrite Ht, written_warning.
      split; [reflexivity|]. split; [eauto|done].
  - intros object0 rest Hdll Hobjs Hsyms.
    destruct (dll_libraries self) as [dll|]; [|done].
    rewrite Hobjs in Hout. destruct Hout as (_ & Ht & _).
    rewrite Ht, written_app, written_warning, Hsyms. reflexivity.
Qed.


(** On an adapter whose [dll_libraries] is [None], every link call
    raises [TypeError] at [libraries.extend] and never reaches the base
    link step. *)
Lemma link_dll_libraries_None (self : ccompiler) (a : link_args)
    (h : gmap loc (list string)) :
  valid_call h a = true ->
  dll_libraries self = None ->
  value (link os_path write_file_raises UnixCCompiler_link self a h)
  = Raise (TypeError "'NoneType' object is not iterable").
Proof.
  intros Hv Hdll. rewrite link_unfold. cbv zeta.
  destruct (link_prepare_outcome self a h Hv) as (lp & ll & lo & _ & _ & _ & _ & _ & _ & Hout).
  cbv zeta in Hout. destruct Hout as [_ Hout]. rewrite Hdll in Hout.
  destruct Hout as [_ ->]. reflexivity.
Qed.

End LinkOutcome.

(** ** Sample runs of [link] *)

Example link_sample_run :
  let r := link posixpath.ops write_succeeds reporting_link
             (sample_compiler (Some ["vcruntime140"])) sample_call sample_heap in
  value r = Ok tt /\
  trace r =
    [Warn _runtime_library_dirs_msg;
     Execute_write_file "build/temp/mylib.def"
       ["LIBRARY mylib.dll"; "EXPORTS"; "foo"; "bar"] "writing build/temp/mylib.def";
     Link_step ["build/temp/foo.o"; "build/temp/bar.o"; "build/temp/mylib.def"]
       ["m"; "vcruntime140"] ["-v"; "-s"]].
Proof. vm_compute. split; reflexivity. Qed.

Example link_sample_run_debug :
  let r := link posixpath.ops write_succeeds reporting_link
             (sample_compiler (Some ["vcruntime140"])) sample_call_debug sample_heap in
  value r = Ok tt /\
  trace r =
    [Warn _runtime_library_dirs_msg;
     Execute_write_file "build/temp/mylib.def"
       ["LIBRARY mylib.dll"; "EXPORTS"; "foo"; "bar"] "writing build/temp/mylib.def";
     Link_step ["build/temp/foo.o"; "build/temp/bar.o"; "build/temp/mylib.def"]
       ["m"; "vcruntime140"] ["-v"]].
Proof. vm_compute. split; reflexivity. Qed.

(** One list handed in three roles: the three copies are distinct lists,
    and the caller's list keeps its items. *)
Example link_sample_run_aliased :
  let r := link_prepare posixpath.ops write_succeeds
             (sample_compiler (Some ["vcruntime140"])) sample_call_aliased sample_heap in
  value r = Ok (passed_on sample_call_aliased 7%positive 8%positive 9%positive) /\
  final r !! 1%positive = Some ["build/temp/foo.o"; "build/temp/bar.o"] /\
  final r !! 7%positive = Some ["build/temp/foo.o"; "build/temp/bar.o"; "-s"] /\
  final r !! 8%positive = Some ["build/temp/foo.o"; "build/temp/bar.o"; "vcruntime140"] /\
  final r !! 9%positive = Some ["build/temp/foo.o"; "build/temp/bar.o"].
Proof. vm_compute. repeat split; reflexivity. Qed.

Lemma or_empty_items_run (x : option loc) (h : gmap loc (list string)) :
  exists v, or_empty_items x h = Run h [] v.
Proof.
  destruct x as [l|]; [|by eexists]. unfold or_empty_items, load.
  destruct (h !! l); by eexists.
Qed.

Lemma reporting_link_frame : base_link_frame reporting_link.
Proof.
  intros self args h l _ _ _ _. unfold reporting_link, bind.
  destruct (or_empty_items_run (objects args) h) as [[xs|e] ->]; [|reflexivity].
  destruct (or_empty_items_run (libraries args) h) as [[ys|e] ->]; [|reflexivity].
  destruct (or_empty_items_run (extra_preargs args) h) as [[zs|e] ->]; reflexivity.
Qed.

Lemma link_def_file_contents_witness :
  written (trace (link_prepare posixpath.ops write_succeeds
                    (sample_compiler (Some ["vcruntime140"])) sample_call sample_heap))
  = [("build/temp/mylib.def", ["LIBRARY mylib.dll"; "EXPORTS"; "foo"; "bar"])] /\
  exists later,
    written (trace (link posixpath.ops write_succeeds reporting_link
                      (sample_compiler (Some ["vcruntime140"])) sample_call sample_heap))
    = ("build/temp/mylib.def", ["LIBRARY mylib.dll"; "EXPORTS"; "foo"; "bar"]) :: later.
Proof.
  assert (Hv : valid_call sample_heap sample_call = true) by (vm_compute; reflexivity).
  apply (proj2 (link_def_file_contents posixpath.ops write_succeeds reporting_link
                  (sample_compiler (Some ["vcruntime140"])) sample_call sample_heap Hv)
           ["vcruntime140"] "build/temp/foo.o" ["build/temp/bar.o"]).
  - reflexivity.
  - split; [discriminate | left; discriminate].
  - reflexivity.
Defined.




Lemma link_reports_runtime_library_dirs_witness :
  (exists t,
     trace (link posixpath.ops write_succeeds reporting_link
              (sample_compiler (Some ["vcruntime140"])) sample_call sample_heap)
     = Warn _runtime_library_dirs_msg :: t) /\
  (forall dir h0,
     runtime_library_dir_option (sample_compiler (Some ["vcruntime140"])) dir h0 =
       Run h0 [Warn _runtime_library_dirs_msg] (Ok [])).
Proof.
  apply (link_reports_runtime_library_dirs posixpath.ops write_succeeds reporting_link
           (sample_compiler (Some ["vcruntime140"])) sample_call sample_heap).
  - vm_compute. reflexivity.
  - vm_compute. discriminate.
Defined.

Lemma link_leaves_caller_lists_witness :
  extends sample_heap
    (final (link posixpath.ops write_succeeds reporting_link
              (sample_compiler (Some ["vcruntime140"])) sample_call sample_heap)).
Proof.
  assert (Hv : valid_call sample_heap sample_call = true) by (vm_compute; reflexivity).
  apply (link_leaves_caller_lists posixpath.ops write_succeeds reporting_link
           (sample_compiler (Some ["vcruntime140"])) sample_call sample_heap Hv).
  apply reporting_link_frame.
Defined.

Lemma link_export_needs_objects_witness :
  let r := link posixpath.ops write_succeeds reporting_link
             (sample_compiler (Some ["vcruntime140"])) sample_call_no_objects sample_heap in
  written (trace r) = [] /\
  (exists e, value r = Raise e) /\
  (dll_libraries (sample_compiler (Some ["vcruntime140"])) <> None ->
   value r = Raise (IndexError "list index out of range")).
Proof.
  assert (Hv : valid_call sample_heap sample_call_no_objects = true) by (vm_compute; reflexivity).
  assert (He : def_file_expected (sample_compiler (Some ["vcruntime140"])) sample_call_no_objects)
    by (split; [discriminate|left; discriminate]).
  apply (proj1 (link_export_needs_objects posixpath.ops write_succeeds reporting_link
                  (sample_compiler (Some ["vcruntime140"])) sample_call_no_objects
                  sample_heap Hv He)).
  reflexivity.
Defined.

Example link_empty_export_list :
  written (trace (link_prepare posixpath.ops write_succeeds
                    (sample_compiler (Some ["vcruntime140"]))
                    sample_call_no_symbols sample_heap))
  = [("build/temp/mylib.def", ["LIBRARY mylib.dll"; "EXPORTS"])].
Proof. vm_compute. reflexivity. Qed.

(** C4: on an interpreter whose version string has no MSC marker the
    adapter is built with [dll_libraries = None], and a link call raises
    [TypeError] at [libraries.extend], after the warning and before the
    base link step; with the marker the resolved library follows the
    caller's. *)
Theorem link_without_msc_marker :
  msc_ver_of gcc_version = None /\
  value (CygwinCCompiler_init repr_plain (sample_env gcc_version) ∅)
  = Ok (sample_compiler None) /\
  (let r := link posixpath.ops write_succeeds reporting_link
              (sample_compiler None) sample_call sample_heap in
   value r = Raise (TypeError "'NoneType' object is not iterable") /\
   trace r = [Warn _runtime_library_dirs_msg]) /\
  value (CygwinCCompiler_init repr_plain (sample_env msvc_version) ∅)
  = Ok (sample_compiler (Some ["vcruntime140"])) /\
  (let r := link_prepare posixpath.ops write_succeeds
              (sample_compiler (Some ["vcruntime140"])) sample_call sample_heap in
   value r = Ok (passed_on sample_call 7%positive 8%positive 9%positive) /\
   final r !! 8%positive = Some ["m"; "vcruntime140"]).
Proof. vm_compute. repeat split; reflexivity. Qed.

(** ** Output paths *)

Lemma lower_char_sep (c : ascii) :
  Ascii.eqb (lower_char c) ntpath.altsep = Ascii.eqb c ntpath.altsep.
Proof.
  destruct c as [[] [] [] [] [] [] [] []]; reflexivity.
Qed.

Lemma lower_replace_sep (s : string) :
  lower (replace_char ntpath.altsep ntpath.sep s)
  = replace_char ntpath.altsep ntpath.sep (lower s).
Proof.
  induction s as [|c s IH]; [reflexivity|].
  cbn [replace_char lower]. rewrite IH, lower_char_sep.
  destruct (Ascii.eqb c ntpath.altsep); reflexivity.
Qed.

(** C6, as the code has it: the whole source name goes through
    [os.path.normcase] before the base derivation, so two names with the
    same image give the same result; under [ntpath] that image is the
    whole name in lower case with backslashes for slashes, so names that
    differ in letter case only, in the file name or in a directory, give
    the same result. *)
Theorem make_out_path_normcase
    (super : string -> bool -> string -> result string)
    (output_dir : string) (strip_dir : bool) :
  (forall normcase a b,
     normcase a = normcase b ->
     _make_out_path normcase super output_dir strip_dir a
     = _make_out_path normcase super output_dir strip_dir b) /\
  (forall a b,
     lower a = lower b ->
     _make_out_path ntpath.normcase super output_dir strip_dir a
     = _make_out_path ntpath.normcase super output_dir strip_dir b) /\
  (forall a,
     _make_out_path ntpath.normcase super output_dir strip_dir a
     = super output_dir strip_dir (lower (replace_char ntpath.altsep ntpath.sep a))).
Proof.
  split; [|split].
  - intros normcase a b H. unfold _make_out_path, norm_src_name. by rewrite H.
  - intros a b H. unfold _make_out_path, norm_src_name, ntpath.normcase.
    by rewrite !lower_replace_sep, H.
  - reflexivity.
Qed.

(** C6, as the claim has it, fails under [ntpath]: the directory of
    [SRC/FOO.RC] is lower-cased and its separator changed along with the
    file name, where the claim keeps the rest of the path as it is (and
    would give [SRC/foo.rc]); the sources [SRC/FOO.RC] and [src/foo.rc],
    in directories that differ in case, end up with the same output. *)
Lemma make_out_path_rest_not_preserved :
  norm_src_name ntpath.normcase "SRC/FOO.RC" = "src\foo.rc" /\
  norm_src_name ntpath.normcase "SRC/FOO.RC" <> "SRC/foo.rc" /\
  _make_out_path ntpath.normcase echo_make_out_path "build" false "SRC/FOO.RC"
  = _make_out_path ntpath.normcase echo_make_out_path "build" false "src/foo.rc".
Proof. vm_compute. repeat split; discriminate. Qed.

(** ** Construction *)

Section ConstructionProperties.

Variable repr : string -> string.
Variable shlex_split : string -> result (list string).
Variable check_output : list string -> result string.

(** [CygwinCCompiler.__init__] returns when the configuration check and
    the resolver return, and raises what the resolver raises. *)
Lemma CygwinCCompiler_init_returns (env : environment)
    (h : gmap loc (list string)) (status : config_h_status) (details : string)
    (dll : option (list string)) :
  check_config_h repr env = Ok (status, details) ->
  get_msvcr (sys_version env) = Ok dll ->
  exists t,
    CygwinCCompiler_init repr env h =
      Run h t
        (Ok {| ctype := cygwin;
               cc := default "gcc" (environ_CC env);
               cxx := default "g++" (environ_CXX env);
               linker_dll := default "gcc" (environ_CC env);
               exes := {| compiler := default "gcc" (environ_CC env) +:+ " -mcygwin -O -Wall";
                          compiler_so := default "gcc" (environ_CC env) +:+ " -mcygwin -mdll -O -Wall";
                          compiler_cxx := default "g++" (environ_CXX env) +:+ " -mcygwin -O -Wall";
                          linker_exe := default "gcc" (environ_CC env) +:+ " -mcygwin";
                          linker_so := default "gcc" (environ_CC env) +:+ " -mcygwin -shared" |};
               dll_libraries := dll |}).
Proof.
  intros Hc Hm. unfold CygwinCCompiler_init, bind, lift. rewrite Hc, Hm.
  destruct status; eexists; reflexivity.
Qed.

Lemma CygwinCCompiler_init_raises (env : environment)
    (h : gmap loc (list string)) (status : config_h_status) (details : string)
    (e : exn) :
  check_config_h repr env = Ok (status, details) ->
  get_msvcr (sys_version env) = Raise e ->
  value (CygwinCCompiler_init repr env h) = Raise e.
Proof.
  intros Hc Hm. unfold CygwinCCompiler_init, bind, lift. rewrite Hc, Hm.
  destruct status; reflexivity.
Qed.

(** C7: once the base constructor has set up the adapter, the MinGW
    constructor raises [CCompilerError] when [is_cygwincc] answers true
    for its [cc], and returns the adapter with the MinGW command lines
    when it answers false. *)
Theorem Mingw32CCompiler_init_checks_cygwin (env : environment)
    (h h' : gmap loc (list string)) (t : list event) (self : ccompiler)
    (is_cygwin : bool) :
  CygwinCCompiler_init repr env h = Run h' t (Ok self) ->
  is_cygwincc shlex_split check_output (cc self) = Ok is_cygwin ->
  Mingw32CCompiler_init repr shlex_split check_output env h =
    Run h' t
      (if is_cygwin
       then Raise (CCompilerError "Cygwin gcc cannot be used with --compiler=mingw32")
       else Ok {| ctype := mingw32; cc := cc self; cxx := cxx self;
                  linker_dll := linker_dll self;
                  exes := {| compiler := cc self +:+ " -O -Wall";
                             compiler_so := cc self +:+ " -mdll -O -Wall";
                             compiler_cxx := cxx self +:+ " -O -Wall";
                             linker_exe := cc self;
                             linker_so := linker_dll self +:+ " -shared" |};
                  dll_libraries := dll_libraries self |}).
Proof.
  intros Hinit Hcyg. unfold Mingw32CCompiler_init.
  rewrite (bind_ok _ _ _ _ _ _ Hinit). unfold lift, bind. rewrite Hcyg.
  destruct is_cygwin; unfold after; cbn; by rewrite !app_nil_r.
Qed.

(** What [is_cygwincc] answers: whether the output of [cc -dumpmachine],
    stripped, ends with [cygwin]. *)
Lemma is_cygwincc_answer (cc : string) (argv : list string) (out : string) :
  shlex_split cc = Ok argv ->
  check_output (argv ++ ["-dumpmachine"]) = Ok out ->
  is_cygwincc shlex_split check_output cc = Ok (endswith "cygwin" (strip out)).
Proof. intros Hs Hc. unfold is_cygwincc. by rewrite Hs, Hc. Qed.

End ConstructionProperties.

Lemma Mingw32CCompiler_init_checks_cygwin_witness :
  value (Mingw32CCompiler_init repr_plain split_one_word dumpmachine_cygwin
           (sample_env msvc_version) ∅)
  = Raise (CCompilerError "Cygwin gcc cannot be used with --compiler=mingw32") /\
  is_ok (value (Mingw32CCompiler_init repr_plain split_one_word dumpmachine_mingw
                  (sample_env msvc_version) ∅)) = true.
Proof.
  split.
  - rewrite (Mingw32CCompiler_init_checks_cygwin repr_plain split_one_word dumpmachine_cygwin
               (sample_env msvc_version) ∅ ∅
               [DebugPrint "Python's GCC status: ok (details: '/usr/include/python3.10/pyconfig.h' mentions '__GNUC__')"]
               (sample_compiler (Some ["vcruntime140"])) true);
      [reflexivity | vm_compute; reflexivity | vm_compute; reflexivity].
  - rewrite (Mingw32CCompiler_init_checks_cygwin repr_plain split_one_word dumpmachine_mingw
               (sample_env msvc_version) ∅ ∅
               [DebugPrint "Python's GCC status: ok (details: '/usr/include/python3.10/pyconfig.h' mentions '__GNUC__')"]
               (sample_compiler (Some ["vcruntime140"])) false);
      [reflexivity | vm_compute; reflexivity | vm_compute; reflexivity].
Defined.

Lemma make_out_path_normcase_witness :
  _make_out_path ntpath.normcase echo_make_out_path "build" false "FOO.RC"
  = _make_out_path ntpath.normcase echo_make_out_path "build" false "foo.rc".
Proof.
  apply (proj1 (proj2 (make_out_path_normcase echo_make_out_path "build" false))).
  vm_compute. reflexivity.
Defined.

(** * Further properties of the module *)

(** * Further properties *)

(** ** Strings *)

Lemma append_cons (c : ascii) (s t : string) :
  String c s +:+ t = String c (s +:+ t).
Proof. reflexivity. Qed.

Lemma append_empty_l (t : string) : EmptyString +:+ t = t.
Proof. reflexivity. Qed.



Lemma take_drop_str (n : nat) (s : string) : take_str n s +:+ drop_str n s = s.
Proof.
  revert s. induction n as [|n IH]; intros [|c s]; try reflexivity.
  cbn [take_str drop_str]. by rewrite append_cons, IH.
Qed.

Lemma startswith_app (p s : string) : startswith p (p +:+ s) = true.
Proof.
  induction p as [|c p IH]; [reflexivity|].
  rewrite append_cons. cbn [startswith]. by rewrite Ascii.eqb_refl.
Qed.

Lemma startswith_inv (p s : string) :
  startswith p s = true -> exists q, s = p +:+ q.
Proof.
  revert s. induction p as [|c p IH]; intros s H.
  - by exists s.
  - destruct s as [|a s]; [discriminate|]. cbn [startswith] in H.
    destruct (Ascii.eqb_spec c a) as [<-|]; [|discriminate].
    destruct (IH s H) as [q ->]. by exists q.
Qed.

(** [needle in hay] holds exactly when [hay] is [needle] between two
    strings. *)
Lemma contains_spec (needle hay : string) :
  contains needle hay = true <-> exists p q, hay = p +:+ needle +:+ q.
Proof.
  split.
  - induction hay as [|c hay IH]; cbn [contains]; intros H.
    + rewrite orb_false_r in H. apply startswith_inv in H as [q ->].
      by exists EmptyString, q.
    + apply orb_true_iff in H as [H|H].
      * apply startswith_inv in H as [q ->]. by exists EmptyString, q.
      * destruct (IH H) as (p & q & ->). by exists (String c p), q.
  - intros (p & q & ->). induction p as [|c p IH].
    + rewrite append_empty_l.
      destruct (needle +:+ q) eqn:E; cbn [contains];
        rewrite <- E, startswith_app; reflexivity.
    + rewrite append_cons. cbn [contains]. rewrite IH. apply orb_true_r.
Qed.

(** [s.endswith(suffix)] holds exactly when [s] ends in [suffix]. *)
Lemma endswith_spec (suffix s : string) :
  endswith suffix s = true <-> exists p, s = p +:+ suffix.
Proof.
  split.
  - induction s as [|c s IH]; cbn [endswith]; intros H.
    + rewrite orb_false_r in H. apply String.eqb_eq in H as ->. by exists EmptyString.
    + apply orb_true_iff in H as [H|H].
      * apply String.eqb_eq in H as ->. by exists EmptyString.
      * destruct (IH H) as [p ->]. by exists (String c p).
  - intros [p ->]. induction p as [|c p IH].
    + rewrite append_empty_l. destruct suffix; cbn [endswith]; by rewrite String.eqb_refl.
    + rewrite append_cons. cbn [endswith]. rewrite IH. apply orb_true_r.
Qed.

Lemma lstrip_spaces (ws s : string) :
  all_space ws = true -> lstrip (ws +:+ s) = lstrip s.
Proof.
  induction ws as [|c ws IH]; [reflexivity|]. cbn [all_space].
  intros [Hc Hws]%andb_prop. rewrite append_cons. cbn [lstrip]. rewrite Hc. auto.
Qed.

Lemma rstrip_all_space (ws : string) : all_space ws = true -> rstrip ws = EmptyString.
Proof.
  induction ws as [|c ws IH]; [reflexivity|]. cbn [all_space].
  intros [Hc Hws]%andb_prop. cbn [rstrip]. by rewrite (IH Hws), Hc.
Qed.

Lemma rstrip_spaces (s ws : string) :
  all_space ws = true -> rstrip (s +:+ ws) = rstrip s.
Proof.
  intros Hws. induction s as [|c s IH].
  - rewrite append_empty_l. by apply rstrip_all_space.
  - rewrite append_cons. cbn [rstrip]. by rewrite IH.
Qed.

Lemma lstrip_all_space (ws : string) : all_space ws = true -> lstrip ws = EmptyString.
Proof.
  induction ws as [|c ws IH]; [reflexivity|]. cbn [all_space].
  intros [Hc Hws]%andb_prop. cbn [lstrip]. rewrite Hc. auto.
Qed.

(** Blanks and line ends around a string do not change what [strip]
    gives. *)
Lemma strip_spaces (ws1 s ws2 : string) :
  all_space ws1 = true -> all_space ws2 = true ->
  strip (ws1 +:+ s +:+ ws2) = strip s.
Proof.
  intros H1 H2. unfold strip. rewrite (lstrip_spaces _ _ H1).
  induction s as [|c s IH].
  - rewrite append_empty_l. by rewrite (lstrip_all_space _ H2).
  - rewrite append_cons. cbn [lstrip]. destruct (is_space c); [exact IH|].
    rewrite <- append_cons. by apply rstrip_spaces.
Qed.

(** ** The resolver and the constructors *)

Lemma match_msc_here_inv (s g : string) :
  match_msc_here s = Some g -> exists post, s = "MSC v." +:+ g +:+ post.
Proof.
  unfold match_msc_here. destruct (startswith "MSC v." s) eqn:Hs; [|discriminate].
  apply startswith_inv in Hs as [q ->].
  change (drop_str 6 ("MSC v." +:+ q)) with q.
  pose proof (take_drop_str 4 q) as Hq. set (g' := take_str 4 q) in *.
  cbv zeta. destruct (_ && _); [|discriminate]. intros [= <-].
  exists (drop_str 4 q). by rewrite Hq.
Qed.

Lemma re_search_msc_inv (s g : string) :
  re_search_msc s = Some g -> exists pre post, s = pre +:+ "MSC v." +:+ g +:+ post.
Proof.
  induction s as [|c s IH]; cbn [re_search_msc].
  - discriminate.
  - destruct (match_msc_here (String c s)) as [g'|] eqn:Hm.
    + intros [= <-]. apply match_msc_here_inv in Hm as [post ->].
      by exists EmptyString, post.
    + intros (pre & post & ->)%IH. by exists (String c pre), post.
Qed.

(** X1: a version is read off the version string only where the marker
    [MSC v.] is followed by four digits; it is the number those four
    digits spell, so it lies between 0 and 9999. *)
Theorem msc_ver_of_four_digits (sys_version : string) (v : Z) :
  msc_ver_of sys_version = Some v ->
  0 <= v <= 9999 /\
  exists pre d post,
    sys_version = pre +:+ "MSC v." +:+ d +:+ post /\
    String.length d = 4%nat /\ all_digits d = true /\ v = int d.
Proof.
  intros Hv. split; [pose proof (msc_ver_of_bound _ _ Hv); lia|].
  apply msc_ver_of_Some in Hv as (g & Hg & <-).
  destruct (re_search_msc_digits _ _ Hg) as [Hlen Hd].
  apply re_search_msc_inv in Hg as (pre & post & ->).
  by exists pre, g, post.
Qed.

Lemma msc_ver_of_four_digits_witness :
  0 <= 1929 <= 9999 /\
  exists pre d post,
    msvc_version = pre +:+ "MSC v." +:+ d +:+ post /\
    String.length d = 4%nat /\ all_digits d = true /\ 1929 = int d.
Proof. apply (msc_ver_of_four_digits msvc_version 1929). vm_compute. reflexivity. Defined.

(** X2: [get_msvcr] has three outcomes: [None] when the version string
    has no marker, a list of exactly one library when the version is in
    [1300, 2000), and the value error naming the version otherwise, below
    1300 as well as from 2000 on. *)
Theorem get_msvcr_outcomes (sys_version : string) :
  match msc_ver_of sys_version with
  | None => get_msvcr sys_version = Ok None
  | Some v =>
      if (1300 <=? v) && (v <? 2000)
      then exists name, get_msvcr sys_version = Ok (Some [name])
      else get_msvcr sys_version =
             Raise (ValueError ("Unknown MS Compiler version " +:+ str v +:+ " "))
  end.
Proof.
  destruct (msc_ver_of sys_version) as [v|] eqn:Hv;
    [|by apply get_msvcr_no_marker].
  rewrite (get_msvcr_ranges _ _ Hv).
  destruct (Z.leb_spec 1300 v); cbn [andb].
  - assert ((v <? 1300) = false) as -> by (apply Z.ltb_ge; lia).
    destruct (Z.ltb_spec v 2000).
    + repeat match goal with |- context [v <? ?a] => destruct (v <? a) end; eauto.
    + assert (Hge : forall k, k <= 2000 -> (v <? k) = false)
        by (intros k Hk; apply Z.ltb_ge; lia).
      rewrite !Hge by lia. reflexivity.
  - assert ((v <? 1300) = true) as -> by (apply Z.ltb_lt; lia). reflexivity.
Qed.

Section FurtherConstruction.

Variable repr : string -> string.
Variable shlex_split : string -> result (list string).
Variable check_output : list string -> result string.

Ltac classify :=
  repeat split; intros;
  repeat match goal with
         | H : _ /\ _ |- _ => destruct H
         | H : exists _, _ |- _ => destruct H
         | H : _ \/ _ |- _ => destruct H
         end;
  simplify_eq; first [done | congruence | by left | right; by eauto | by eauto].

(** X3: the configuration check answers [CONFIG_H_OK] exactly when the
    version string mentions GCC or Clang or the header that was read
    mentions [__GNUC__]; it answers [CONFIG_H_UNCERTAIN] exactly when
    neither is mentioned and the read failed with an [OSError]; and it
    raises only what a read that is reached raises otherwise. *)
Theorem check_config_h_classifies (env : environment) :
  let mentioned :=
    contains "GCC" (sys_version env) || contains "Clang" (sys_version env) in
  (status_of (check_config_h repr env) = Some CONFIG_H_OK <->
   mentioned = true \/
   exists text, config_h env = read_text text /\ contains "__GNUC__" text = true) /\
  (status_of (check_config_h repr env) = Some CONFIG_H_UNCERTAIN <->
   mentioned = false /\ exists strerror, config_h env = read_OSError strerror) /\
  (forall e,
     check_config_h repr env = Raise e <->
     mentioned = false /\ config_h env = read_raises e).
Proof.
  cbv zeta. unfold check_config_h.
  destruct (contains "GCC" (sys_version env)); cbn [orb status_of];
    [classify|].
  destruct (contains "Clang" (sys_version env)); cbn [status_of];
    [classify|].
  destruct (config_h env) as [text|strerror|e0].
  - destruct (contains "__GNUC__" text) eqn:Hg; cbn [status_of]; classify.
  - cbn [status_of]. classify.
  - cbn [status_of]. classify.
Qed.

(** X4: the configuration check is advisory: when it returns, the
    constructor warns exactly when its status is not [CONFIG_H_OK], leaves
    the store alone, and returns or raises as the resolver does, with [cc]
    and [cxx] from the environment (default [gcc] and [g++]) and the
    linker equal to [cc]. *)
Theorem CygwinCCompiler_init_advisory (env : environment)
    (h : gmap loc (list string)) (status : config_h_status) (details : string) :
  check_config_h repr env = Ok (status, details) ->
  let r := CygwinCCompiler_init repr env h in
  final r = h /\
  (warnings (trace r) = [] <-> status = CONFIG_H_OK) /\
  (forall e, get_msvcr (sys_version env) = Raise e -> value r = Raise e) /\
  (forall dll,
     get_msvcr (sys_version env) = Ok dll ->
     exists self,
       value r = Ok self /\ dll_libraries self = dll /\ ctype self = cygwin /\
       cc self = default "gcc" (environ_CC env) /\
       cxx self = default "g++" (environ_CXX env) /\
       linker_dll self = cc self).
Proof.
  intros Hc. cbv zeta. unfold CygwinCCompiler_init, bind, lift. rewrite Hc.
  destruct (get_msvcr (sys_version env)) as [dll|e]; destruct status;
    cbn; repeat split; try (intros; discriminate); try done.
  all: try (intros ? [= <-]; eexists; repeat split; reflexivity).
  all: try (intros ? [= <-]; reflexivity).
Qed.

(** X5: the MinGW constructor adds no event and no change of the store to
    the base constructor; it raises what the base constructor raises and
    what [is_cygwincc] raises; and when it returns, the base constructor
    returned, [is_cygwincc] answered false, and the adapter has the base
    one's [cc] and runtime libraries. *)
Theorem Mingw32CCompiler_init_propagates (env : environment)
    (h : gmap loc (list string)) :
  let rc := CygwinCCompiler_init repr env h in
  let rm := Mingw32CCompiler_init repr shlex_split check_output env h in
  trace rm = trace rc /\ final rm = final rc /\
  (forall e, value rc = Raise e -> value rm = Raise e) /\
  (forall self e,
     value rc = Ok self ->
     is_cygwincc shlex_split check_output (cc self) = Raise e ->
     value rm = Raise e) /\
  (forall self',
     value rm = Ok self' ->
     exists self,
       value rc = Ok self /\
       is_cygwincc shlex_split check_output (cc self) = Ok false /\
       ctype self' = mingw32 /\ cc self' = cc self /\
       dll_libraries self' = dll_libraries self).
Proof.
  cbv zeta. unfold Mingw32CCompiler_init.
  destruct (CygwinCCompiler_init repr env h) as [h' t [self|e]] eqn:Hc.
  2:{ rewrite (bind_raise _ _ _ _ _ _ Hc). cbn [trace final value].
      repeat split; intros; by simplify_eq. }
  rewrite (bind_ok _ _ _ _ _ _ Hc). unfold bind, lift.
  destruct (is_cygwincc shlex_split check_output (cc self)) as [[|]|e] eqn:Hcyg;
    unfold after; cbn; rewrite ?app_nil_r; repeat split; intros; simplify_eq;
    try done; try congruence.
  by eexists.
Qed.

(** X6: [is_cygwincc] looks at the output of [cc -dumpmachine] with the
    blanks and line ends around it removed, and answers true exactly when
    what is left ends in [cygwin]. *)
Theorem is_cygwincc_strips_output (cc : string) (argv : list string)
    (ws1 out ws2 : string) :
  shlex_split cc = Ok argv ->
  check_output (argv ++ ["-dumpmachine"]) = Ok (ws1 +:+ out +:+ ws2) ->
  all_space ws1 = true -> all_space ws2 = true ->
  is_cygwincc shlex_split check_output cc = Ok (endswith "cygwin" (strip out)) /\
  (endswith "cygwin" (strip out) = true <-> exists p, strip out = p +:+ "cygwin").
Proof.
  intros Hs Hc H1 H2. split; [|apply endswith_spec].
  unfold is_cygwincc. by rewrite Hs, Hc, strip_spaces.
Qed.

End FurtherConstruction.

Lemma CygwinCCompiler_init_advisory_witness :
  let r := CygwinCCompiler_init repr_plain (sample_env_cc gcc_version "clang") ∅ in
  final r = ∅ /\
  (warnings (trace r) = [] <-> CONFIG_H_OK = CONFIG_H_OK).
Proof.
  pose proof (CygwinCCompiler_init_advisory repr_plain (sample_env_cc gcc_version "clang") ∅
                CONFIG_H_OK "sys.version mentions 'GCC'") as H.
  destruct H as (Hf & Hw & _); [vm_compute; reflexivity|].
  split; [exact Hf|exact Hw].
Defined.

Lemma is_cygwincc_strips_output_witness :
  is_cygwincc split_one_word dumpmachine_cygwin "gcc"
  = Ok (endswith "cygwin" (strip "x86_64-pc-cygwin")) /\
  (endswith "cygwin" (strip "x86_64-pc-cygwin") = true <->
   exists p, strip "x86_64-pc-cygwin" = p +:+ "cygwin").
Proof.
  apply (is_cygwincc_strips_output split_one_word dumpmachine_cygwin "gcc" ["gcc"]
           EmptyString "x86_64-pc-cygwin" newline); reflexivity.
Defined.

(** ** Compiling *)

Example compile_upper_case_resource :
  _compile spawn_without_windres split_blanks (sample_compiler None)
    "build/ICON.o" "ICON.RC" ".RC" ["-Iinclude"] [] ["-Iinclude"]
  = {| spawned := ["gcc"; "-mcygwin"; "-mdll"; "-O"; "-Wall"; "-Iinclude";
                   "ICON.RC"; "-o"; "build/ICON.o"];
       compile_ended := compile_returns |}.
Proof. vm_compute. reflexivity. Qed.

Example compile_windres_missing :
  compile_ended (_compile spawn_without_windres split_blanks (sample_compiler None)
                   "build/icon.o" "icon.rc" ".rc" [] [] [])
  = compile_CompileError "command 'windres' failed: No such file or directory".
Proof. vm_compute. reflexivity. Qed.

(** ** Object extensions *)



(** ** Linking *)

Section FurtherLink.

Variable os_path : os.path.
Variable write_file_raises : string -> list string -> option exn.
Variable UnixCCompiler_link : ccompiler -> link_args -> M unit.
Variable repr : string -> string.





(** X12: when writing the definition file fails, [link] raises what the
    write raised, after the warning and the request and without entering
    the base link step, and the caller's lists are as they were. *)
Theorem link_write_failure (self : ccompiler) (a : link_args)
    (h : gmap loc (list string)) (dll : list string) (object0 : string)
    (rest : list string) (e : exn) :
  valid_call h a = true ->
  dll_libraries self = Some dll ->
  def_file_expected self a ->
  items h (objects a) = object0 :: rest ->
  write_file_raises (def_file_name os_path a object0)
    (def_file_contents os_path a (items h (export_symbols a))) = Some e ->
  let r := link os_path write_file_raises UnixCCompiler_link self a h in
  value r = Raise e /\
  trace r =
    unsupported_warning (items h (runtime_library_dirs a))
    ++ [Execute_write_file (def_file_name os_path a object0)
          (def_file_contents os_path a (items h (export_symbols a)))
          ("writing " +:+ def_file_name os_path a object0)] /\
  final r = final (link_prepare os_path write_file_raises self a h) /\
  extends h (final r).
Proof.
  intros Hv Hdll Hexp%generates_def_file_spec Hobjs Hw. cbv zeta.
  rewrite link_unfold. cbv zeta.
  destruct (link_prepare_outcome os_path write_file_raises self a h Hv)
    as (lp & ll & lo & _ & _ & _ & _ & _ & _ & Hout).
  cbv zeta in Hout. destruct Hout as [Hext Hout].
  rewrite Hdll, Hexp, Hobjs, Hw in Hout. destruct Hout as (_ & Ht & Hval).
  rewrite Hval. cbn [value trace final]. done.
Qed.

(** X13: the events of [link] before the base link step are, in this
    order, the warning about runtime library directories if a non-empty
    list of them was given, and at most one request to write a definition
    file, whose message is [writing] and the file's path. *)
Theorem link_own_events (self : ccompiler) (a : link_args)
    (h : gmap loc (list string)) :
  valid_call h a = true ->
  exists ws,
    trace (link_prepare os_path write_file_raises self a h)
    = unsupported_warning (items h (runtime_library_dirs a)) ++ ws /\
    (ws = [] \/
     exists object0 rest,
       items h (objects a) = object0 :: rest /\
       ws = [Execute_write_file (def_file_name os_path a object0)
               (def_file_contents os_path a (items h (export_symbols a)))
               ("writing " +:+ def_file_name os_path a object0)]).
Proof.
  intros Hv.
  destruct (link_prepare_outcome os_path write_file_raises self a h Hv)
    as (lp & ll & lo & _ & _ & _ & _ & _ & _ & Hout).
  cbv zeta in Hout. destruct Hout as [_ Hout].
  destruct (dll_libraries self) as [dll|].
  - destruct Hout as [_ Hout]. destruct (generates_def_file self a).
    + destruct (items h (objects a)) as [|object0 rest].
      * destruct Hout as [-> _]. exists []. rewrite app_nil_r. by split; [|left].
      * destruct Hout as [-> _]. eexists. split; [reflexivity|]. right. eauto.
    + destruct Hout as [-> _]. exists []. rewrite app_nil_r. by split; [|left].
  - destruct Hout as [-> _]. exists []. rewrite app_nil_r. by split; [|left].
Qed.




End FurtherLink.



Lemma link_write_failure_witness :
  let r := link posixpath.ops write_fails reporting_link
             (sample_compiler (Some ["vcruntime140"])) sample_call sample_heap in
  value r = Raise (ExternalError "Permission denied") /\
  trace r =
    unsupported_warning (items sample_heap (runtime_library_dirs sample_call))
    ++ [Execute_write_file (def_file_name posixpath.ops sample_call "build/temp/foo.o")
          (def_file_contents posixpath.ops sample_call
             (items sample_heap (export_symbols sample_call)))
          ("writing " +:+ def_file_name posixpath.ops sample_call "build/temp/foo.o")] /\
  final r = final (link_prepare posixpath.ops write_fails
                     (sample_compiler (Some ["vcruntime140"])) sample_call sample_heap) /\
  extends sample_heap (final r).
Proof.
  apply (link_write_failure posixpath.ops write_fails reporting_link
           (sample_compiler (Some ["vcruntime140"])) sample_call sample_heap
           ["vcruntime140"] "build/temp/foo.o" ["build/temp/bar.o"]).
  - vm_compute. reflexivity.
  - reflexivity.
  - split; [discriminate|left; discriminate].
  - reflexivity.
  - reflexivity.
Defined.

Lemma link_own_events_witness :
  exists ws,
    trace (link_prepare posixpath.ops write_succeeds
             (sample_compiler (Some ["vcruntime140"])) sample_call sample_heap)
    = unsupported_warning (items sample_heap (runtime_library_dirs sample_call)) ++ ws /\
    (ws = [] \/
     exists object0 rest,
       items sample_heap (objects sample_call) = object0 :: rest /\
       ws = [Execute_write_file (def_file_name posixpath.ops sample_call object0)
               (def_file_contents posixpath.ops sample_call
                  (items sample_heap (export_symbols sample_call)))
               ("writing " +:+ def_file_name posixpath.ops sample_call object0)]).
Proof.
  apply (link_own_events posixpath.ops write_succeeds
           (sample_compiler (Some ["vcruntime140"])) sample_call sample_heap).
  vm_compute. reflexivity.
Defined.




Example link_repeated_objects :
  let r1 := link_prepare posixpath.ops write_succeeds
              (sample_compiler (Some ["vcruntime140"])) sample_call sample_heap in
  let r2 := link_prepare posixpath.ops write_succeeds
              (sample_compiler (Some ["vcruntime140"])) sample_call (final r1) in
  match value r2 with
  | Ok args => items (final r2) (objects args)
  | Raise _ => []
  end = ["build/temp/foo.o"; "build/temp/bar.o"; "build/temp/mylib.def"].
Proof. vm_compute. reflexivity. Qed.

(** ** Where the definition file goes *)

























Example def_file_beside_first_object_sample :
  def_file_name posixpath.ops sample_call "build/temp/foo.o" = "build/temp/mylib.def" /\
  def_file_name posixpath.ops sample_call "foo.o" = "mylib.def" /\
  def_file_name posixpath.ops sample_call "/foo.o" = "/mylib.def".
Proof. vm_compute. repeat split. Qed.

(** ** Output paths, again *)

Lemma lower_char_idem (c : ascii) : lower_char (lower_char c) = lower_char c.
Proof. destruct c as [[] [] [] [] [] [] [] []]; reflexivity. Qed.

Lemma lower_idem (s : string) : lower (lower s) = lower s.
Proof.
  induction s as [|c s IH]; [reflexivity|]. cbn [lower].
  by rewrite lower_char_idem, IH.
Qed.

Lemma replace_sep_idem (s : string) :
  replace_char ntpath.altsep ntpath.sep (replace_char ntpath.altsep ntpath.sep s)
  = replace_char ntpath.altsep ntpath.sep s.
Proof.
  induction s as [|c s IH]; [reflexivity|]. cbn [replace_char]. rewrite IH.
  destruct (Ascii.eqb c ntpath.altsep) eqn:Hc; [reflexivity|]. by rewrite Hc.
Qed.

(** X18: under [ntpath] a source name that is already normalized gives the
    same output path as the name it was normalized from: normalizing twice
    gives what normalizing once gives, and the result has no slash and no
    upper-case letter of its own. *)
Theorem make_out_path_stable
    (super : string -> bool -> string -> result string)
    (output_dir : string) (strip_dir : bool) (src_name : string) :
  _make_out_path ntpath.normcase super output_dir strip_dir (ntpath.normcase src_name)
  = _make_out_path ntpath.normcase super output_dir strip_dir src_name /\
  lacks_char "/" (norm_src_name ntpath.normcase src_name) = true /\
  lower (norm_src_name ntpath.normcase src_name) = norm_src_name ntpath.normcase src_name.
Proof.
  unfold _make_out_path, norm_src_name, ntpath.normcase. split; [|split].
  - by rewrite (lower_replace_sep (lower _)), lower_idem, <- lower_replace_sep,
         replace_sep_idem.
  - induction src_name as [|c s IH]; [reflexivity|].
    cbn [replace_char lower lacks_char]. rewrite IH, andb_true_r.
    destruct (Ascii.eqb c ntpath.altsep) eqn:Hc; [reflexivity|].
    change "/"%char with ntpath.altsep. by rewrite lower_char_sep, Hc.
  - apply lower_idem.
Qed.
